(** * Min Renovasjon calendar platform

    A shallow embedding of the two calendar platforms of the repository,

      - [custom_components/min_renovasjon/calendar.py]       (module [MinRenovasjon])
      - [custom_components/min_renovasjon_test/calendar.py]  (module [MinRenovasjonTest])

    and the properties of the event builder ([_fetch_events]), the range
    filter ([async_get_events]), the cache refresh ([async_update]) and the
    next-event selector ([_get_next_event]).

    Conventions of the model.

    - A Python [datetime] is its wall-clock reading, counted in microseconds
      on the proleptic Gregorian calendar, together with its [tzinfo]
      (absent for a naive value).  The day of a reading is its quotient by
      [usec_per_day]; a [date] is that day number.  Readings are unbounded
      integers: the year range 1..9999 of Python is outside the model.
    - The host's time zone ([DEFAULT_TIME_ZONE] of [homeassistant.util.dt])
      is a function giving the UTC offset in force at a wall-clock reading.
    - The awaited answer of [get_calendar_list()] and the reading of
      [datetime.now()] are inputs of each operation; the clock is read once
      per operation.
    - Exceptions are the subclasses of [Exception]; a raising computation
      returns [Raise e]. *)

From Stdlib Require Import ZArith List String Ascii Bool Lia.
From Stdlib Require Import Sorting.Sorted Sorting.Permutation.
Import ListNotations.
Open Scope string_scope.
Open Scope list_scope.
Open Scope Z_scope.

Set Implicit Arguments.

(* ===================================================================== *)
(** ** Exceptions *)

Inductive exn : Type :=
| ValueError
| TypeError
| IndexError
| AttributeError
| OtherError (msg : string).

Inductive result (A : Type) : Type :=
| Ok (a : A)
| Raise (e : exn).

Arguments Ok {A} a.
Arguments Raise {A} e.

Definition rbind {A B} (r : result A) (k : A -> result B) : result B :=
  match r with
  | Ok a => k a
  | Raise e => Raise e
  end.

Declare Scope py_scope.
Delimit Scope py_scope with py.
Notation "x <- c ;; k" := (rbind c (fun x => k))
  (at level 61, c at next level, right associativity) : py_scope.
Open Scope py_scope.

(** [a and b], [a or b] on conditions that may raise: the right operand is
    evaluated only when the left one does not decide. *)
Definition py_and (a b : result bool) : result bool :=
  x <- a ;; if x then b else Ok false.

Definition py_or (a b : result bool) : result bool :=
  x <- a ;; if x then Ok true else b.

(* ===================================================================== *)
(** ** Dates and times *)

Definition usec_per_day : Z := 86400000000.

Inductive tzinfo : Type :=
| TzFixed (offset : Z)      (* datetime.timezone(timedelta(microseconds=offset)) *)
| TzDefault.                (* the host's DEFAULT_TIME_ZONE *)

(** [datetime.timezone.utc], which compares equal to a fixed zone of
    offset zero. *)
Definition UTC : tzinfo := TzFixed 0.

Record datetime : Type := mkDatetime {
  wall : Z;
  tz : option tzinfo
}.

(** [dt.date()], as a day number. *)
Definition date_of (d : datetime) : Z := wall d / usec_per_day.

(** [dt.replace(hour=0, minute=0, second=0, microsecond=0)] *)
Definition replace_midnight (d : datetime) : datetime :=
  mkDatetime (wall d - wall d mod usec_per_day) (tz d).

(** [dt + timedelta(days=n)]: wall-clock arithmetic, [tzinfo] kept. *)
Definition add_days (d : datetime) (n : Z) : datetime :=
  mkDatetime (wall d + n * usec_per_day) (tz d).

(* ===================================================================== *)
(** ** Python values reaching the platform *)

#[warnings="-register-all"]
Inductive pyval : Type :=
| VNone
| VInt (z : Z)
| VStr (s : string)
| VDate (ordinal : Z)
| VDateTime (d : datetime)
| VTuple (items : list pyval).       (* a tuple or a list *)

(** Truth value of an object in a condition. *)
Definition truthy (v : pyval) : bool :=
  match v with
  | VNone => false
  | VInt z => negb (z =? 0)
  | VStr s => negb (String.eqb s "")
  | VDate _ => true
  | VDateTime _ => true
  | VTuple items => match items with [] => false | _ => true end
  end.

(** Iteration ([for x in v], and the right-hand side of an unpacking): a
    string yields its characters, one per byte of the model's strings. *)
Definition py_iter (v : pyval) : result (list pyval) :=
  match v with
  | VTuple items => Ok items
  | VStr s => Ok (map (fun c => VStr (String c EmptyString)) (list_ascii_of_string s))
  | _ => Raise TypeError
  end.

(** [a, b, c, d, e = v] *)
Definition unpack5 (v : pyval)
  : result (pyval * pyval * pyval * pyval * pyval) :=
  items <- py_iter v ;;
  match items with
  | [a; b; c; d; e] => Ok (a, b, c, d, e)
  | _ => Raise ValueError
  end.

(** [v.date()]: only a [datetime] has the method. *)
Definition date_method (v : pyval) : result Z :=
  match v with
  | VDateTime d => Ok (date_of d)
  | _ => Raise AttributeError
  end.

(** [homeassistant.components.calendar.CalendarEvent], the fields the
    platform sets; the constructor stores them (a validation of the fields
    by the host is outside the model). *)
Record CalendarEvent : Type := mkCalendarEvent {
  summary : string;
  start : datetime;
  end_ : datetime;
  description : string
}.

(* ===================================================================== *)
(** ** The host: time zone and string formatting *)

(** What the host and the Python runtime supply: the UTC offset of
    [DEFAULT_TIME_ZONE] at a wall-clock reading, and [str()] of a value that
    is not a string (as an f-string formats it). *)
Class Host : Type := {
  local_utcoffset : Z -> Z;
  py_str : pyval -> string
}.

Section HostUtilities.
Context {host : Host}.

(** [tz.utcoffset(dt)] *)
Definition utcoffset (t : tzinfo) (w : Z) : Z :=
  match t with
  | TzFixed o => o
  | TzDefault => local_utcoffset w
  end.

(** [homeassistant.util.dt.as_utc]: a value already in UTC is returned as it
    is, a naive one is taken to be in the host's zone, and the reading is
    moved to UTC. *)
Definition as_utc (d : datetime) : datetime :=
  match tz d with
  | Some (TzFixed 0) => d
  | Some t => mkDatetime (wall d - utcoffset t (wall d)) (Some UTC)
  | None => mkDatetime (wall d - local_utcoffset (wall d)) (Some UTC)
  end.

(** [homeassistant.util.dt.start_of_local_day]: midnight, in the host's
    zone, of the day of a [datetime], of a [date], or of today for [None]. *)
Definition start_of_local_day (today : Z) (v : pyval) : result datetime :=
  match v with
  | VNone => Ok (mkDatetime (today * usec_per_day) (Some TzDefault))
  | VDateTime d => Ok (mkDatetime (date_of d * usec_per_day) (Some TzDefault))
  | VDate o => Ok (mkDatetime (o * usec_per_day) (Some TzDefault))
  | _ => Raise TypeError
  end.

(** [v + timedelta(days=1)] *)
Definition add_one_day (v : pyval) : result pyval :=
  match v with
  | VDateTime d => Ok (VDateTime (add_days d 1))
  | VDate o => Ok (VDate (o + 1))
  | _ => Raise TypeError
  end.

(** [v.replace(hour=0, minute=0, second=0, microsecond=0)]: a [date] and a
    string have a [replace] that refuses these keywords. *)
Definition replace_method (v : pyval) : result datetime :=
  match v with
  | VDateTime d => Ok (replace_midnight d)
  | VDate _ | VStr _ => Raise TypeError
  | _ => Raise AttributeError
  end.

(** [f"{v}"] *)
Definition format_value (v : pyval) : string :=
  match v with
  | VStr s => s
  | _ => py_str v
  end.

(** Ordering of two [datetime]s.  Two naive values, and two values of the
    same zone, are ordered by their readings; two aware values of different
    zones by their UTC readings; a naive and an aware value are not
    comparable. *)
Definition dt_compare (a b : datetime) : result comparison :=
  match tz a, tz b with
  | None, None => Ok (wall a ?= wall b)
  | Some TzDefault, Some TzDefault => Ok (wall a ?= wall b)
  | Some ta, Some tb =>
      Ok (wall a - utcoffset ta (wall a) ?= wall b - utcoffset tb (wall b))
  | _, _ => Raise TypeError
  end.

Definition dt_lt (a b : datetime) : result bool :=
  c <- dt_compare a b ;; Ok (match c with Lt => true | _ => false end).

Definition dt_le (a b : datetime) : result bool :=
  c <- dt_compare a b ;; Ok (match c with Gt => false | _ => true end).

Definition dt_ge (a b : datetime) : result bool := dt_le b a.

(** [events.sort(key=lambda x: x.start)]: the sort is stable and uses [<]
    on the keys only.  It is written as an insertion sort, an element going
    before the first one that is not smaller than it: on keys that [<]
    orders consistently every stable sort returns this list, and on a list
    with a naive and an aware key the comparison of the two raises. *)
Fixpoint insert_by_start (x : CalendarEvent) (l : list CalendarEvent)
  : result (list CalendarEvent) :=
  match l with
  | [] => Ok [x]
  | y :: l' =>
      lt <- dt_lt (start y) (start x) ;;
      if lt then (r <- insert_by_start x l' ;; Ok (y :: r))
      else Ok (x :: y :: l')
  end.

Fixpoint sort_by_start (l : list CalendarEvent) : result (list CalendarEvent) :=
  match l with
  | [] => Ok []
  | x :: l' => s <- sort_by_start l' ;; insert_by_start x s
  end.

(** [min(l, key=lambda x: x.start)] on a list with first element [best]:
    the first of the smallest elements. *)
Fixpoint min_by_start (best : CalendarEvent) (l : list CalendarEvent)
  : result CalendarEvent :=
  match l with
  | [] => Ok best
  | x :: l' =>
      lt <- dt_lt (start x) (start best) ;;
      min_by_start (if lt then x else best) l'
  end.

(** A list comprehension [[e for e in l if cond(e)]] whose condition may
    raise. *)
Fixpoint filter_r (cond : CalendarEvent -> result bool) (l : list CalendarEvent)
  : result (list CalendarEvent) :=
  match l with
  | [] => Ok []
  | x :: l' =>
      c <- cond x ;;
      r <- filter_r cond l' ;;
      Ok (if c then x :: r else r)
  end.

End HostUtilities.

(* ===================================================================== *)
(** ** Building a list of events *)

(** The body of [_fetch_events] appends to the local list [events] and may
    raise: a computation takes the list built so far and gives the list
    after it, with its value or its exception.  What was appended before an
    exception stays appended. *)
Definition builder (A : Type) : Type :=
  list CalendarEvent -> list CalendarEvent * result A.

Definition bret {A} (a : A) : builder A := fun events => (events, Ok a).

Definition bbind {A B} (m : builder A) (k : A -> builder B) : builder B :=
  fun events =>
    match m events with
    | (events', Ok a) => k a events'
    | (events', Raise e) => (events', Raise e)
    end.

Notation "x <~ c ;; k" := (bbind c (fun x => k))
  (at level 61, c at next level, right associativity) : py_scope.

Definition lift {A} (r : result A) : builder A := fun events => (events, r).

(** [events.append(e)] *)
Definition append (e : CalendarEvent) : builder unit :=
  fun events => (events ++ [e], Ok tt).

(** [try: m  except (classes): continue] *)
Definition try_except (m : builder unit) (caught : exn -> bool) : builder unit :=
  fun events =>
    match m events with
    | (events', Raise e) => (events', if caught e then Ok tt else Raise e)
    | done => done
    end.

(** [for entry in entries: body(entry)] *)
Fixpoint for_each (body : pyval -> builder unit) (entries : list pyval)
  : builder unit :=
  match entries with
  | [] => bret tt
  | entry :: rest => _ <~ body entry ;; for_each body rest
  end.

(** [try: r  except Exception: handler] *)
Definition try_or {A} (r : result A) (handler : exn -> result A) : result A :=
  match r with
  | Ok a => Ok a
  | Raise e => handler e
  end.

(** [MinRenovasjonCalendarEntity]: both files declare the same fields.
    [_hass] and [_min_renovasjon] are references to host objects;
    [config_entry] stands for its [entry_id]. *)
Record MinRenovasjonCalendarEntity : Type := mkEntity {
  _hass : Z;
  _min_renovasjon : Z;
  _name : string;
  _events : list CalendarEvent;
  config_entry : string
}.

(** [self._events = events] *)
Definition set_events (self : MinRenovasjonCalendarEntity)
  (events : list CalendarEvent) : MinRenovasjonCalendarEntity :=
  mkEntity (_hass self) (_min_renovasjon self) (_name self) events
           (config_entry self).

(** [__init__], the same in both files; [CALENDAR_NAME] of [const.py] is a
    parameter. *)
Definition __init__ (CALENDAR_NAME : string) (hass min_renovasjon : Z)
  (config_entry : string) : MinRenovasjonCalendarEntity :=
  mkEntity hass min_renovasjon CALENDAR_NAME [] config_entry.

(** The property [name]. *)
Definition name (self : MinRenovasjonCalendarEntity) : string := _name self.

(** The property [unique_id]: [f"{self.config_entry.entry_id}_calendar"]. *)
Definition unique_id (self : MinRenovasjonCalendarEntity) : string :=
  (config_entry self ++ "_calendar")%string.

(** [d[key]] on a dictionary with string keys: [KeyError], written
    [OtherError "KeyError"], for a missing key. *)
Fixpoint dict_get {V : Type} (d : list (string * V)) (key : string)
  : result V :=
  match d with
  | [] => Raise (OtherError "KeyError")
  | (k, v) :: rest => if String.eqb k key then Ok v else dict_get rest key
  end.

(** The host object [hass]: a reference to it and its registry [hass.data],
    a dictionary by domain of dictionaries of references. *)
Record HomeAssistant : Type := mkHomeAssistant {
  hass_ref : Z;
  data : list (string * list (string * Z))
}.

(** [async_setup_entry], the same in both files: the value is the list
    handed to [async_add_entities]; [DOMAIN] and [CALENDAR_NAME] of
    [const.py] are parameters. *)
Definition async_setup_entry (DOMAIN CALENDAR_NAME : string)
  (hass : HomeAssistant) (config_entry : string)
  : result (list MinRenovasjonCalendarEntity) :=
  domain_data <- dict_get (data hass) DOMAIN ;;
  min_renovasjon <- dict_get domain_data "data" ;;
  Ok [__init__ CALENDAR_NAME (hass_ref hass) min_renovasjon config_entry].

(** The two condition parts shared by both files. *)
Section Conditions.
Context {host : Host}.

(** [pickup_date and pickup_date.date() >= datetime.now().date()] *)
Definition is_due (today : Z) (pickup_date : pyval) : result bool :=
  py_and (Ok (truthy pickup_date))
         (d <- date_method pickup_date ;; Ok (today <=? d)).

(** The condition of the comprehension of [async_get_events]. *)
Definition in_range (start_date end_date : datetime) (event : CalendarEvent)
  : result bool :=
  py_or (py_and (dt_le start_date (as_utc (start event)))
                (dt_le (as_utc (start event)) end_date))
 (py_or (py_and (dt_le start_date (as_utc (end_ event)))
                (dt_le (as_utc (end_ event)) end_date))
        (py_and (dt_le (as_utc (start event)) start_date)
                (dt_le end_date (as_utc (end_ event))))).

(** [[event for event in events if event.start >= now]], then [None] for an
    empty list and [min(..., key=lambda x: x.start)] otherwise. *)
Definition next_from (now : datetime) (events : list CalendarEvent)
  : result (option CalendarEvent) :=
  future_events <- filter_r (fun event => dt_ge (start event) now) events ;;
  match future_events with
  | [] => Ok None
  | first :: others => e <- min_by_start first others ;; Ok (Some e)
  end.

End Conditions.

(* ===================================================================== *)
(** ** custom_components/min_renovasjon/calendar.py *)

Module MinRenovasjon.
Section Platform.
Context {host : Host}.

(** One of the two [if] blocks of the loop body of [_fetch_events]. *)
Definition pickup_event (today : Z) (fraction_name pickup_date : pyval)
  : builder unit :=
  due <~ lift (is_due today pickup_date) ;;
  if due then
    event_start <~ lift (replace_method pickup_date) ;;
    let event_end := add_days event_start 1 in
    append (mkCalendarEvent (format_value fraction_name ++ " tømming")%string
                            event_start event_end
                            ("Tømming av " ++ format_value fraction_name)%string)
  else bret tt.

(** The loop body of [_fetch_events]. *)
Definition process_entry (today : Z) (entry : pyval) : builder unit :=
  match entry with
  | VNone => bret tt
  | _ =>
      fields <~ lift (unpack5 entry) ;;
      let '(fraction_id, fraction_name, _, pickup_date, next_pickup_date) :=
        fields in
      _ <~ pickup_event today fraction_name pickup_date ;;
      pickup_event today fraction_name next_pickup_date
  end.

Definition _fetch_events (answer : result pyval) (now : Z)
  : result (list CalendarEvent) :=
  let today := now / usec_per_day in
  let body : builder unit :=
    calendar_list <~ lift answer ;;
    if truthy calendar_list then
      entries <~ lift (py_iter calendar_list) ;;
      for_each (process_entry today) entries
    else bret tt in
  match body [] with
  | (events, Ok _) => sort_by_start events
  | (_, Raise e) => Raise e
  end.

Definition async_get_events (answer : result pyval) (now : Z)
  (start_date end_date : datetime) (self : MinRenovasjonCalendarEntity)
  : MinRenovasjonCalendarEntity * result (list CalendarEvent) :=
  let start_date := as_utc start_date in
  let end_date := as_utc end_date in
  match _fetch_events answer now with
  | Raise e => (self, Raise e)
  | Ok events =>
      let self := set_events self events in
      (self, filter_r (in_range start_date end_date) (_events self))
  end.

Definition async_update (answer : result pyval) (now : Z)
  (self : MinRenovasjonCalendarEntity)
  : MinRenovasjonCalendarEntity * result unit :=
  match _fetch_events answer now with
  | Raise e => (self, Raise e)
  | Ok events => (set_events self events, Ok tt)
  end.

Definition _get_next_event (now : Z) (self : MinRenovasjonCalendarEntity)
  : MinRenovasjonCalendarEntity * result (option CalendarEvent) :=
  let now := mkDatetime now None in
  (self, next_from now (_events self)).

(** The property [event]. *)
Definition event (now : Z) (self : MinRenovasjonCalendarEntity)
  : MinRenovasjonCalendarEntity * result (option CalendarEvent) :=
  _get_next_event now self.

End Platform.
End MinRenovasjon.

(* ===================================================================== *)
(** ** custom_components/min_renovasjon_test/calendar.py *)

Module MinRenovasjonTest.
Section Platform.
Context {host : Host}.

(** One of the two [if] blocks of the loop body of [_fetch_events]. *)
Definition pickup_event (today : Z) (fraction_name pickup_date : pyval)
  : builder unit :=
  due <~ lift (is_due today pickup_date) ;;
  if due then
    event_start <~ lift (d <- start_of_local_day today pickup_date ;;
                         Ok (as_utc d)) ;;
    event_end <~ lift (next_day <- add_one_day pickup_date ;;
                       d <- start_of_local_day today next_day ;;
                       Ok (as_utc d)) ;;
    append (mkCalendarEvent (format_value fraction_name ++ " tømming")%string
                            event_start event_end
                            ("Tømming av " ++ format_value fraction_name)%string)
  else bret tt.

(** [except (ValueError, TypeError, IndexError)] *)
Definition entry_errors (e : exn) : bool :=
  match e with
  | ValueError | TypeError | IndexError => true
  | _ => false
  end.

(** The loop body of [_fetch_events]. *)
Definition process_entry (today : Z) (entry : pyval) : builder unit :=
  match entry with
  | VNone => bret tt
  | _ =>
      try_except
        (fields <~ lift (unpack5 entry) ;;
         let '(fraction_id, fraction_name, _, pickup_date, next_pickup_date) :=
           fields in
         _ <~ pickup_event today fraction_name pickup_date ;;
         pickup_event today fraction_name next_pickup_date)
        entry_errors
  end.

Definition _fetch_events (answer : result pyval) (now : Z)
  : result (list CalendarEvent) :=
  let today := now / usec_per_day in
  let body : builder unit :=
    calendar_list <~ lift answer ;;
    if truthy calendar_list then
      entries <~ lift (py_iter calendar_list) ;;
      for_each (process_entry today) entries
    else bret tt in
  try_or
    (match body [] with
     | (events, Ok _) => sort_by_start events
     | (_, Raise e) => Raise e
     end)
    (fun _ => Ok []).

Definition async_get_events (answer : result pyval) (now : Z)
  (start_date end_date : datetime) (self : MinRenovasjonCalendarEntity)
  : MinRenovasjonCalendarEntity * result (list CalendarEvent) :=
  let start_date := as_utc start_date in
  let end_date := as_utc end_date in
  match _fetch_events answer now with
  | Raise e => (self, Ok [])
  | Ok events =>
      let self := set_events self events in
      (self, try_or (filter_r (in_range start_date end_date) (_events self))
                    (fun _ => Ok []))
  end.

Definition async_update (answer : result pyval) (now : Z)
  (self : MinRenovasjonCalendarEntity)
  : MinRenovasjonCalendarEntity * result unit :=
  match _fetch_events answer now with
  | Raise e => (set_events self [], Ok tt)
  | Ok events => (set_events self events, Ok tt)
  end.

Definition _get_next_event (now : Z) (self : MinRenovasjonCalendarEntity)
  : MinRenovasjonCalendarEntity * result (option CalendarEvent) :=
  let now := as_utc (mkDatetime now None) in
  (self, try_or (next_from now (_events self)) (fun _ => Ok None)).

(** The property [event]. *)
Definition event (now : Z) (self : MinRenovasjonCalendarEntity)
  : MinRenovasjonCalendarEntity * result (option CalendarEvent) :=
  _get_next_event now self.

End Platform.
End MinRenovasjonTest.

(* ===================================================================== *)
(** ** The data model and the properties, as the specification words them *)

(** A pickup entry of the data model: fraction identifier, fraction display
    name, an unused third field, pickup date and next pickup date (each
    present or not). *)
Record PickupEntry : Type := mkPickupEntry {
  fraction_id : string;
  fraction_name : string;
  unused : pyval;
  pickup_date : option datetime;
  next_pickup_date : option datetime
}.

Definition date_value (d : option datetime) : pyval :=
  match d with
  | Some dt => VDateTime dt
  | None => VNone
  end.

(** The tuple the data source hands over for an entry; a null entry is
    [None]. *)
Definition entry_value (entry : option PickupEntry) : pyval :=
  match entry with
  | None => VNone
  | Some p =>
      VTuple [VStr (fraction_id p); VStr (fraction_name p); unused p;
              date_value (pickup_date p); date_value (next_pickup_date p)]
  end.

Definition calendar_value (entries : list (option PickupEntry)) : pyval :=
  VTuple (map entry_value entries).

(** The dates of an entry all carry the [tzinfo] [z]: none at all for
    naive dates, as a parser of date strings gives them. *)
Definition date_in (z : option tzinfo) (d : option datetime) : Prop :=
  match d with
  | Some dt => tz dt = z
  | None => True
  end.

Definition entry_in (z : option tzinfo) (entry : option PickupEntry) : Prop :=
  match entry with
  | Some p => date_in z (pickup_date p) /\ date_in z (next_pickup_date p)
  | None => True
  end.

Section Specification.
Context {host : Host}.

(** The instant of a [datetime]: its reading once normalized to UTC. *)
Definition instant (d : datetime) : Z := wall (as_utc d).

(** Midnight of day [d] in the configured local zone. *)
Definition local_midnight (d : Z) : datetime :=
  mkDatetime (d * usec_per_day) (Some TzDefault).

(** The event of a fraction for local day [d]: from local midnight to the
    following local midnight, both in UTC. *)
Definition local_day_event (name : string) (d : Z) : CalendarEvent :=
  mkCalendarEvent (name ++ " tømming")%string
                  (as_utc (local_midnight d))
                  (as_utc (local_midnight (d + 1)))
                  ("Tømming av " ++ name)%string.

(** The event of [min_renovasjon/calendar.py] for a pickup [datetime]: from
    midnight of its day on its own wall clock to the same reading a day
    later, the [tzinfo] kept. *)
Definition wall_day_event (name : string) (dt : datetime) : CalendarEvent :=
  mkCalendarEvent (name ++ " tømming")%string
                  (replace_midnight dt)
                  (add_days (replace_midnight dt) 1)
                  ("Tømming av " ++ name)%string.

(** What one date field of an entry generates: one event when the date is
    present and not before today, nothing otherwise. *)
Definition field_events (mk : string -> datetime -> CalendarEvent)
  (today : Z) (name : string) (d : option datetime) : list CalendarEvent :=
  match d with
  | Some dt => if today <=? date_of dt then [mk name dt] else []
  | None => []
  end.

Definition entry_events (mk : string -> datetime -> CalendarEvent)
  (today : Z) (entry : option PickupEntry) : list CalendarEvent :=
  match entry with
  | None => []
  | Some p =>
      field_events mk today (fraction_name p) (pickup_date p) ++
      field_events mk today (fraction_name p) (next_pickup_date p)
  end.

(** The three ways an event is in a requested range, on instants. *)
Definition overlaps (range_start range_end : Z) (event : CalendarEvent) : Prop :=
  (range_start <= instant (start event) <= range_end) \/
  (range_start <= instant (end_ event) <= range_end) \/
  (instant (start event) <= range_start /\ range_end <= instant (end_ event)).

Definition overlapsb (range_start range_end : Z) (event : CalendarEvent) : bool :=
  ((range_start <=? instant (start event)) &&
   (instant (start event) <=? range_end)) ||
  ((range_start <=? instant (end_ event)) &&
   (instant (end_ event) <=? range_end)) ||
  ((instant (start event) <=? range_start) &&
   (range_end <=? instant (end_ event))).

(** The event and the range share an instant. *)
Definition share_instant (range_start range_end : Z) (event : CalendarEvent)
  : Prop :=
  exists t, range_start <= t <= range_end /\
            instant (start event) <= t <= instant (end_ event).

(** [e] is the earliest, by [key], of the events of [events] that start at
    [now] or later. *)
Definition earliest_from (key : datetime -> Z) (now : Z)
  (events : list CalendarEvent) (e : CalendarEvent) : Prop :=
  In e events /\ now <= key (start e) /\
  forall e', In e' events -> now <= key (start e') ->
             key (start e) <= key (start e').

(** A family of [datetime]s that Python orders by [key]. *)
Definition ordered_by (P : datetime -> Prop) (key : datetime -> Z) : Prop :=
  forall a b, P a -> P b -> dt_compare a b = Ok (key a ?= key b).

(** Every event has one of the two shapes. *)
Definition is_local_day (e : CalendarEvent) : Prop :=
  exists name d, e = local_day_event name d.

Definition is_wall_day (e : CalendarEvent) : Prop :=
  exists name dt, e = wall_day_event name dt.

(** The event of a pickup [datetime] in [min_renovasjon_test/calendar.py]:
    the local day of its date. *)
Definition local_event_of (name : string) (dt : datetime) : CalendarEvent :=
  local_day_event name (date_of dt).

(** A computation that only appends events satisfying [P], whether it
    returns or raises. *)
Definition appends (P : CalendarEvent -> Prop) {A} (m : builder A) : Prop :=
  forall events, exists added,
    fst (m events) = events ++ added /\ Forall P added.

(** The events of [built] in the requested range, in their order. *)
Definition events_in_range (start_date end_date : datetime)
  (built : list CalendarEvent) : list CalendarEvent :=
  filter (overlapsb (instant start_date) (instant end_date)) built.

(** Order of the events by the reading of their [start]. *)
Definition start_order (a b : CalendarEvent) : Prop :=
  wall (start a) <= wall (start b).

(** [self'] is [self] with its cached list replaced by [built]: the cache
    is [built], whatever it was, and the other fields are as before. *)
Definition cache_replaced (self : MinRenovasjonCalendarEntity)
  (built : list CalendarEvent) (self' : MinRenovasjonCalendarEntity) : Prop :=
  _events self' = built /\
  _hass self' = _hass self /\
  _min_renovasjon self' = _min_renovasjon self /\
  _name self' = _name self /\
  config_entry self' = config_entry self.

(** A pickup list with its null entries removed. *)
Definition is_none (v : pyval) : bool :=
  match v with
  | VNone => true
  | _ => false
  end.

Definition without_none (entries : list pyval) : list pyval :=
  filter (fun v => negb (is_none v)) entries.

(** A [datetime] that carries a [tzinfo]. *)
Definition aware (d : datetime) : bool :=
  match tz d with
  | Some _ => true
  | None => false
  end.

(** A date field holding something true that is not a [datetime]. *)
Definition wrong_date (v : pyval) : bool :=
  truthy v && match v with VDateTime _ => false | _ => true end.

(** A day of the host's zone is never shorter than nothing: the UTC offset
    does not grow by more than a day from one local midnight to the next. *)
Definition days_run_forward : Prop :=
  forall d, local_utcoffset ((d + 1) * usec_per_day)
            - local_utcoffset (d * usec_per_day) <= usec_per_day.

(** The first event of [events] that starts at [now] or later. *)
Definition first_from (now : Z) (events : list CalendarEvent)
  : option CalendarEvent :=
  find (fun e => now <=? wall (start e)) events.

(** A computation that appends at most [n] events, whether it returns or
    raises. *)
Definition appends_at_most (n : nat) {A} (m : builder A) : Prop :=
  forall events, exists added,
    fst (m events) = events ++ added /\ (List.length added <= n)%nat.

End Specification.

(** A host for the examples: Norwegian time in 2024, one hour ahead of UTC
    and two in summer time (from 31 March 02:00 to 27 October 03:00 on the
    local wall clock); values that are not strings print as [?]. *)
Definition oslo_utcoffset (w : Z) : Z :=
  if (738976 * usec_per_day + 7200000000 <=? w) &&
     (w <? 739186 * usec_per_day + 10800000000)
  then 7200000000 else 3600000000.

Definition oslo : Host :=
  {| local_utcoffset := oslo_utcoffset; py_str := fun _ => "?" |}.

(** 2024-06-10 and 2024-06-24 as naive [datetime]s at midnight, and 14:30 on
    2024-06-09. *)
Definition june_10 : datetime := mkDatetime (739047 * usec_per_day) None.
Definition june_24 : datetime := mkDatetime (739061 * usec_per_day) None.
Definition june_09_1430 : Z := 739046 * usec_per_day + 52200000000.

(** A query from 08:00 to 10:00 on 2024-06-10, local wall clock. *)
Definition june_10_0800 : datetime :=
  mkDatetime (739047 * usec_per_day + 28800000000) None.
Definition june_10_1000 : datetime :=
  mkDatetime (739047 * usec_per_day + 36000000000) None.

(** An entity before its first update. *)
Definition fresh_entity : MinRenovasjonCalendarEntity :=
  mkEntity 1 2 "Min Renovasjon" [] "entry".

(** An entity whose cache holds an event of an earlier fetch. *)
Definition stale_entity : MinRenovasjonCalendarEntity :=
  mkEntity 1 2 "Min Renovasjon" [wall_day_event "Papir" june_10] "entry".

(** The data source fails. *)
Definition no_answer : result pyval := Raise (OtherError "no answer").

(** An entity of [min_renovasjon_test] after a fetch of the first example. *)
Definition upcoming_entity : MinRenovasjonCalendarEntity :=
  mkEntity 1 2 "Min Renovasjon"
    [@local_day_event oslo "Plastic" 739047;
     @local_day_event oslo "Plastic" 739061] "entry".

(** An entry whose two dates are the same day. *)
Definition paper_twice : PickupEntry :=
  mkPickupEntry "paper" "Papir" (VStr "") (Some june_10) (Some june_10).

(** 2024-06-24 as a [datetime] in UTC, and an entry with that date. *)
Definition june_24_utc : datetime :=
  mkDatetime (739061 * usec_per_day) (Some UTC).

Definition glass_aware : PickupEntry :=
  mkPickupEntry "glass" "Glass" (VStr "") (Some june_24_utc) None.

Definition plastic : PickupEntry :=
  mkPickupEntry "plastic" "Plastic" (VStr "") (Some june_10) (Some june_24).

(* ===================================================================== *)
(** * Properties *)

(** ** Comparing and normalizing [datetime]s *)

Section DatetimeFacts.
Context {host : Host}.

Lemma as_utc_tz (d : datetime) : tz (as_utc d) = Some UTC.
Proof.
  unfold as_utc.
  destruct d as [w [[[|p|p]|]|]]; reflexivity.
Qed.

Lemma as_utc_of_utc (d : datetime) : tz d = Some UTC -> as_utc d = d.
Proof.
  destruct d as [w t]; simpl; intros ->; reflexivity.
Qed.

Lemma as_utc_idempotent (d : datetime) : as_utc (as_utc d) = as_utc d.
Proof. apply as_utc_of_utc, as_utc_tz. Qed.


Lemma utc_ordered : ordered_by (fun d => tz d = Some UTC) wall.
Proof.
  intros [wa ta] [wb tb]; simpl; intros -> ->.
  unfold dt_compare; simpl. now rewrite !Z.sub_0_r.
Qed.

(** Values that carry one and the same [tzinfo], or none, are ordered by
    their readings. *)
Lemma zone_ordered (z : option tzinfo) : ordered_by (fun d => tz d = z) wall.
Proof.
  intros [wa ta] [wb tb]; simpl; intros -> ->.
  destruct z as [[o|]|]; unfold dt_compare; simpl; try reflexivity.
  f_equal. destruct (Z.compare_spec wa wb) as [H|H|H].
  - subst. apply Z.compare_refl.
  - apply Z.compare_lt_iff. lia.
  - apply Z.compare_gt_iff. lia.
Qed.

Section Ordered.
Variable P : datetime -> Prop.
Variable key : datetime -> Z.
Hypothesis ordered : ordered_by P key.

Lemma dt_lt_ordered a b : P a -> P b -> dt_lt a b = Ok (key a <? key b).
Proof.
  intros Ha Hb. unfold dt_lt. rewrite (ordered Ha Hb). simpl.
  unfold Z.ltb. now destruct (key a ?= key b).
Qed.

Lemma dt_le_ordered a b : P a -> P b -> dt_le a b = Ok (key a <=? key b).
Proof.
  intros Ha Hb. unfold dt_le. rewrite (ordered Ha Hb). simpl.
  unfold Z.leb. now destruct (key a ?= key b).
Qed.

Lemma dt_ge_ordered a b : P a -> P b -> dt_ge a b = Ok (key b <=? key a).
Proof. intros Ha Hb. unfold dt_ge. now apply dt_le_ordered. Qed.

End Ordered.

Lemma dt_le_as_utc (a b : datetime) :
  dt_le (as_utc a) (as_utc b) = Ok (instant a <=? instant b).
Proof. apply (dt_le_ordered utc_ordered); apply as_utc_tz. Qed.

End DatetimeFacts.

(** ** Comprehensions, sorting and the minimum *)

Section ListFacts.
Context {host : Host}.

Lemma filter_r_pure (cond : CalendarEvent -> result bool)
  (f : CalendarEvent -> bool) (l : list CalendarEvent) :
  (forall x, In x l -> cond x = Ok (f x)) ->
  filter_r cond l = Ok (filter f l).
Proof.
  induction l as [|x l IH]; intros H; simpl; [reflexivity|].
  rewrite (H x (or_introl eq_refl)); simpl.
  rewrite IH by (intros y Hy; apply H; now right). simpl.
  reflexivity.
Qed.

Lemma insert_by_start_perm x l r :
  insert_by_start x l = Ok r -> Permutation (x :: l) r.
Proof.
  revert r. induction l as [|y l IH]; simpl; intros r H.
  - inversion H; subst. apply Permutation_refl.
  - destruct (dt_lt (start y) (start x)) as [[|]|e]; simpl in H;
      try discriminate.
    + destruct (insert_by_start x l) as [r'|e]; simpl in H; [|discriminate].
      inversion H; subst.
      eapply perm_trans; [apply perm_swap|]. apply perm_skip. now apply IH.
    + inversion H; subst. apply Permutation_refl.
Qed.

(** A successful sort only rearranges the list. *)
Lemma sort_by_start_perm l s :
  sort_by_start l = Ok s -> Permutation l s.
Proof.
  revert s. induction l as [|x l IH]; simpl; intros s H.
  - inversion H; subst. apply perm_nil.
  - destruct (sort_by_start l) as [s'|e]; simpl in H; [|discriminate].
    eapply perm_trans; [apply perm_skip, IH; reflexivity|].
    now apply insert_by_start_perm.
Qed.

Section Ordered.
Variable P : datetime -> Prop.
Variable key : datetime -> Z.
Hypothesis ordered : ordered_by P key.

Let key_le (a b : CalendarEvent) : Prop := key (start a) <= key (start b).
Let in_family (e : CalendarEvent) : Prop := P (start e).

Lemma insert_by_start_sorted x l :
  in_family x -> Forall in_family l -> StronglySorted key_le l ->
  exists r, insert_by_start x l = Ok r /\ StronglySorted key_le r.
Proof.
  intros Hx. induction l as [|y l IH]; intros Hl Hs; simpl.
  - eexists; split; [reflexivity|]. constructor; constructor.
  - inversion Hl as [|? ? Hy Hl']; subst. inversion Hs as [|? ? Hs' Hy']; subst.
    rewrite (dt_lt_ordered ordered _ _ Hy Hx); simpl.
    destruct (key (start y) <? key (start x)) eqn:E.
    + destruct (IH Hl' Hs') as (r & Hr & Hsr). rewrite Hr; simpl.
      eexists; split; [reflexivity|]. constructor; [assumption|].
      apply Z.ltb_lt in E.
      eapply Permutation_Forall; [apply (insert_by_start_perm _ _ Hr)|].
      constructor; [unfold key_le; lia | assumption].
    + eexists; split; [reflexivity|]. apply Z.ltb_ge in E.
      constructor; [assumption|]. constructor; [exact E|].
      eapply Forall_impl; [|exact Hy']. unfold key_le; intros; simpl in *; lia.
Qed.

(** On a family ordered by [key], the sort succeeds and yields the list in
    non-decreasing order of [key]. *)
Lemma sort_by_start_sorted l :
  Forall in_family l ->
  exists s, sort_by_start l = Ok s /\ Permutation l s /\
            StronglySorted key_le s.
Proof.
  induction l as [|x l IH]; intros Hl; simpl.
  - exists []; repeat split; constructor.
  - inversion Hl as [|? ? Hx Hl']; subst.
    destruct (IH Hl') as (s & Hs & Hp & Hss). rewrite Hs; simpl.
    destruct (@insert_by_start_sorted x s Hx) as (r & Hr & Hsr);
      [eapply Permutation_Forall; eassumption | assumption |].
    exists r; repeat split; try assumption.
    eapply perm_trans; [apply perm_skip, Hp|].
    now apply insert_by_start_perm.
Qed.

(** The first of the smallest elements of a non-empty list. *)
Lemma min_by_start_least best l :
  in_family best -> Forall in_family l ->
  exists m, min_by_start best l = Ok m /\ In m (best :: l) /\
            Forall (key_le m) (best :: l).
Proof.
  revert best. induction l as [|x l IH]; intros best Hb Hl; simpl.
  - exists best; repeat split; [now left|]. constructor; [|constructor].
    unfold key_le; lia.
  - inversion Hl as [|? ? Hx Hl']; subst.
    rewrite (dt_lt_ordered ordered _ _ Hx Hb); simpl.
    destruct (key (start x) <? key (start best)) eqn:E.
    + apply Z.ltb_lt in E.
      destruct (IH x Hx Hl') as (m & Hm & Hin & Hall). exists m.
      inversion Hall as [|? ? Hmx Hmall]; subst.
      repeat split; [assumption | simpl in *; tauto |].
      constructor; [unfold key_le in *; lia|]. now constructor.
    + apply Z.ltb_ge in E.
      destruct (IH best Hb Hl') as (m & Hm & Hin & Hall). exists m.
      inversion Hall as [|? ? Hmb Hmall]; subst.
      repeat split; [assumption | simpl in *; tauto |].
      constructor; [assumption|]. constructor; [unfold key_le in *; lia|].
      assumption.
Qed.

End Ordered.

Lemma StronglySorted_filter (R : CalendarEvent -> CalendarEvent -> Prop)
  (f : CalendarEvent -> bool) l :
  StronglySorted R l -> StronglySorted R (filter f l).
Proof.
  induction 1 as [|x l Hs IH Hx]; simpl; [constructor|].
  destruct (f x); [|assumption].
  constructor; [assumption|].
  apply Forall_forall. intros y Hy. apply filter_In in Hy as [Hy _].
  revert y Hy. now apply Forall_forall.
Qed.

End ListFacts.

(** ** The builder *)

Section BuilderFacts.
Context {host : Host}.

Lemma date_of_add_one_day (d : datetime) :
  date_of (add_days d 1) = date_of d + 1.
Proof.
  unfold date_of, add_days; cbn [wall].
  apply Z.div_add. unfold usec_per_day; lia.
Qed.

Lemma wall_replace_midnight (d : datetime) :
  wall (replace_midnight d) = date_of d * usec_per_day.
Proof.
  unfold date_of, replace_midnight; simpl.
  assert (H : usec_per_day <> 0) by (unfold usec_per_day; lia).
  pose proof (Z.div_mod (wall d) usec_per_day H). lia.
Qed.

Section Appends.
Variable P : CalendarEvent -> Prop.

Lemma appends_bret {A} (a : A) : appends P (bret a).
Proof. intros events; exists []; simpl. now rewrite app_nil_r. Qed.

Lemma appends_lift {A} (r : result A) : appends P (lift r).
Proof. intros events; exists []; simpl. now rewrite app_nil_r. Qed.

Lemma appends_append (e : CalendarEvent) : P e -> appends P (append e).
Proof. intros H events; exists [e]; simpl. split; [reflexivity|]. now constructor. Qed.

Lemma appends_bbind {A B} (m : builder A) (k : A -> builder B) :
  appends P m -> (forall a, appends P (k a)) -> appends P (bbind m k).
Proof.
  intros Hm Hk events. unfold bbind.
  destruct (Hm events) as (added & E & HP).
  destruct (m events) as [events' [a|e]]; simpl in E; subst.
  - destruct (Hk a (events ++ added)) as (added' & E' & HP').
    exists (added ++ added'). rewrite E', app_assoc. split; [reflexivity|].
    apply Forall_app; now split.
  - exists added. now split.
Qed.

Lemma appends_lift_bind {A B} (r : result A) (k : A -> builder B) :
  (forall a, r = Ok a -> appends P (k a)) -> appends P (bbind (lift r) k).
Proof.
  intros Hk events. unfold bbind, lift.
  destruct r as [a|e]; [apply (Hk a eq_refl)|].
  exists []; simpl. now rewrite app_nil_r.
Qed.

Lemma appends_try_except (m : builder unit) (caught : exn -> bool) :
  appends P m -> appends P (try_except m caught).
Proof.
  intros Hm events. unfold try_except.
  destruct (Hm events) as (added & E & HP).
  destruct (m events) as [events' [a|e]]; simpl in *; exists added; now split.
Qed.

Lemma appends_for_each (body : pyval -> builder unit) (entries : list pyval) :
  (forall entry, appends P (body entry)) -> appends P (for_each body entries).
Proof.
  intros Hb. induction entries as [|entry rest IH]; simpl.
  - apply appends_bret.
  - apply appends_bbind; [apply Hb | intros _; exact IH].
Qed.

End Appends.

(** The condition holds only of a [datetime] whose day is today or later. *)
Lemma is_due_true today v :
  is_due today v = Ok true -> exists d, v = VDateTime d /\ today <= date_of d.
Proof.
  unfold is_due, py_and, rbind.
  destruct v as [|z|s|o|d|items]; simpl;
    try discriminate;
    try (destruct (negb _); discriminate);
    try (destruct items; discriminate).
  intros H. exists d. split; [reflexivity|]. apply Z.leb_le. congruence.
Qed.

(** Both files: whatever the field holds, the block appends nothing or one
    event of the file's shape. *)
Lemma test_pickup_event_appends today fraction_name pickup_date :
  appends is_local_day
    (MinRenovasjonTest.pickup_event today fraction_name pickup_date).
Proof.
  unfold MinRenovasjonTest.pickup_event.
  apply appends_lift_bind. intros [|] Hdue; [|apply appends_bret].
  apply is_due_true in Hdue as (d & -> & _). simpl.
  apply appends_lift_bind. intros event_start Hs. inversion Hs; subst.
  apply appends_lift_bind. intros event_end He. inversion He; subst.
  apply appends_append.
  exists (format_value fraction_name), (date_of d).
  unfold local_day_event, local_midnight. now rewrite date_of_add_one_day.
Qed.

Lemma pickup_event_appends today fraction_name pickup_date :
  appends is_wall_day
    (MinRenovasjon.pickup_event today fraction_name pickup_date).
Proof.
  unfold MinRenovasjon.pickup_event.
  apply appends_lift_bind. intros [|] Hdue; [|apply appends_bret].
  apply is_due_true in Hdue as (d & -> & _). simpl.
  apply appends_lift_bind. intros event_start Hs. inversion Hs; subst.
  apply appends_append.
  now exists (format_value fraction_name), d.
Qed.

Lemma test_process_entry_appends today entry :
  appends is_local_day (MinRenovasjonTest.process_entry today entry).
Proof.
  assert (H : appends is_local_day
    (try_except
       (fields <~ lift (unpack5 entry) ;;
        let '(_, fraction_name, _, pickup_date, next_pickup_date) := fields in
        _ <~ MinRenovasjonTest.pickup_event today fraction_name pickup_date ;;
        MinRenovasjonTest.pickup_event today fraction_name next_pickup_date)
       MinRenovasjonTest.entry_errors)).
  { apply appends_try_except, appends_bbind; [apply appends_lift|].
    intros [[[[a b] c] d] e].
    apply appends_bbind; [|intros _]; apply test_pickup_event_appends. }
  destruct entry; first [exact H | apply appends_bret].
Qed.

Lemma process_entry_appends today entry :
  appends is_wall_day (MinRenovasjon.process_entry today entry).
Proof.
  assert (H : appends is_wall_day
    (fields <~ lift (unpack5 entry) ;;
     let '(_, fraction_name, _, pickup_date, next_pickup_date) := fields in
     _ <~ MinRenovasjon.pickup_event today fraction_name pickup_date ;;
     MinRenovasjon.pickup_event today fraction_name next_pickup_date)).
  { apply appends_bbind; [apply appends_lift|].
    intros [[[[a b] c] d] e].
    apply appends_bbind; [|intros _]; apply pickup_event_appends. }
  destruct entry; first [exact H | apply appends_bret].
Qed.

End BuilderFacts.

(** ** The builder on entries of the data model *)

Section TypedEntries.
Context {host : Host}.

Lemma test_pickup_event_typed today name d events :
  MinRenovasjonTest.pickup_event today (VStr name) (date_value d) events
  = (events ++ field_events local_event_of today name d, Ok tt).
Proof.
  destruct d as [dt|]; unfold MinRenovasjonTest.pickup_event, bbind, lift;
    simpl.
  - destruct (today <=? date_of dt); simpl.
    + unfold append, local_event_of, local_day_event, local_midnight.
      now rewrite date_of_add_one_day.
    + now rewrite app_nil_r.
  - now rewrite app_nil_r.
Qed.

Lemma pickup_event_typed today name d events :
  MinRenovasjon.pickup_event today (VStr name) (date_value d) events
  = (events ++ field_events wall_day_event today name d, Ok tt).
Proof.
  destruct d as [dt|]; unfold MinRenovasjon.pickup_event, bbind, lift; simpl.
  - destruct (today <=? date_of dt); simpl; [reflexivity|].
    now rewrite app_nil_r.
  - now rewrite app_nil_r.
Qed.

Lemma test_process_entry_typed today entry events :
  MinRenovasjonTest.process_entry today (entry_value entry) events
  = (events ++ entry_events local_event_of today entry, Ok tt).
Proof.
  destruct entry as [p|]; simpl; [|now rewrite app_nil_r].
  unfold try_except, bbind at 1, lift at 1; simpl.
  unfold bbind. rewrite test_pickup_event_typed, test_pickup_event_typed.
  now rewrite app_assoc.
Qed.

Lemma process_entry_typed today entry events :
  MinRenovasjon.process_entry today (entry_value entry) events
  = (events ++ entry_events wall_day_event today entry, Ok tt).
Proof.
  destruct entry as [p|]; simpl; [|now rewrite app_nil_r].
  unfold bbind at 1, lift at 1; simpl.
  unfold bbind. rewrite pickup_event_typed, pickup_event_typed.
  now rewrite app_assoc.
Qed.

Lemma for_each_typed (body : pyval -> builder unit)
  (mk : string -> datetime -> CalendarEvent) today :
  (forall entry events,
      body (entry_value entry) events
      = (events ++ entry_events mk today entry, Ok tt)) ->
  forall entries events,
    for_each body (map entry_value entries) events
    = (events ++ flat_map (entry_events mk today) entries, Ok tt).
Proof.
  intros Hb. induction entries as [|entry rest IH]; intros events; simpl.
  - now rewrite app_nil_r.
  - unfold bbind. rewrite Hb, IH. now rewrite app_assoc.
Qed.

(** The events of the body of [_fetch_events], before the sort. *)
Lemma test_body_typed today entries :
  (calendar_list <~ lift (Ok (calendar_value entries)) ;;
   if truthy calendar_list then
     entries <~ lift (py_iter calendar_list) ;;
     for_each (MinRenovasjonTest.process_entry today) entries
   else bret tt) []
  = (flat_map (entry_events local_event_of today) entries, Ok tt).
Proof.
  unfold bbind at 1, lift at 1. unfold calendar_value, truthy.
  destruct entries as [|entry rest]; [reflexivity|].
  change (map entry_value (entry :: rest))
    with (entry_value entry :: map entry_value rest).
  cbv iota. unfold bbind at 1, lift at 1, py_iter.
  change (entry_value entry :: map entry_value rest)
    with (map entry_value (entry :: rest)).
  now rewrite (for_each_typed _ local_event_of today
                 (test_process_entry_typed today)).
Qed.

Lemma body_typed today entries :
  (calendar_list <~ lift (Ok (calendar_value entries)) ;;
   if truthy calendar_list then
     entries <~ lift (py_iter calendar_list) ;;
     for_each (MinRenovasjon.process_entry today) entries
   else bret tt) []
  = (flat_map (entry_events wall_day_event today) entries, Ok tt).
Proof.
  unfold bbind at 1, lift at 1. unfold calendar_value, truthy.
  destruct entries as [|entry rest]; [reflexivity|].
  change (map entry_value (entry :: rest))
    with (entry_value entry :: map entry_value rest).
  cbv iota. unfold bbind at 1, lift at 1, py_iter.
  change (entry_value entry :: map entry_value rest)
    with (map entry_value (entry :: rest)).
  now rewrite (for_each_typed _ wall_day_event today
                 (process_entry_typed today)).
Qed.

Lemma local_day_utc e : is_local_day e -> tz (start e) = Some UTC.
Proof. intros (name & d & ->). apply as_utc_tz. Qed.

Lemma field_events_local today name d :
  Forall is_local_day (field_events local_event_of today name d).
Proof.
  destruct d as [dt|]; simpl; [|constructor].
  destruct (today <=? date_of dt); constructor; [|constructor].
  now exists name, (date_of dt).
Qed.

Lemma generated_local today entries :
  Forall is_local_day (flat_map (entry_events local_event_of today) entries).
Proof.
  induction entries as [|[p|] rest IH]; simpl; [constructor| |assumption].
  rewrite !Forall_app. repeat split; try assumption;
    apply field_events_local.
Qed.

Lemma field_events_zone z today name d :
  date_in z d ->
  Forall (fun e => tz (start e) = z)
         (field_events wall_day_event today name d).
Proof.
  destruct d as [dt|]; simpl; intros H; [|constructor].
  destruct (today <=? date_of dt); constructor; [assumption|constructor].
Qed.

Lemma generated_zone z today entries :
  Forall (entry_in z) entries ->
  Forall (fun e => tz (start e) = z)
         (flat_map (entry_events wall_day_event today) entries).
Proof.
  induction 1 as [|[p|] rest Hp Hrest IH]; simpl; [constructor| |assumption].
  destruct Hp as [H1 H2].
  rewrite !Forall_app. repeat split; try assumption;
    now apply field_events_zone.
Qed.

(** [min_renovasjon_test]: on entries of the data model the builder returns
    the generated events, sorted. *)
Lemma test_fetch_typed entries now :
  exists events,
    MinRenovasjonTest._fetch_events (Ok (calendar_value entries)) now
    = Ok events /\
    Permutation
      (flat_map (entry_events local_event_of (now / usec_per_day)) entries)
      events /\
    StronglySorted start_order events.
Proof.
  unfold MinRenovasjonTest._fetch_events. cbv zeta.
  rewrite test_body_typed.
  destruct (sort_by_start_sorted utc_ordered
              (l := flat_map (entry_events local_event_of
                                (now / usec_per_day)) entries))
    as (s & Hs & Hp & Hss).
  { eapply Forall_impl; [|apply generated_local]. apply local_day_utc. }
  rewrite Hs. exists s. now repeat split.
Qed.

(** [min_renovasjon]: the same for entries whose dates carry one [tzinfo],
    or none. *)
Lemma fetch_typed z entries now :
  Forall (entry_in z) entries ->
  exists events,
    MinRenovasjon._fetch_events (Ok (calendar_value entries)) now
    = Ok events /\
    Permutation
      (flat_map (entry_events wall_day_event (now / usec_per_day)) entries)
      events /\
    StronglySorted start_order events.
Proof.
  intros Hn. unfold MinRenovasjon._fetch_events. cbv zeta.
  rewrite body_typed.
  destruct (sort_by_start_sorted (zone_ordered (z := z))
              (l := flat_map (entry_events wall_day_event
                                (now / usec_per_day)) entries))
    as (s & Hs & Hp & Hss).
  { now apply generated_zone. }
  rewrite Hs. exists s. now repeat split.
Qed.

End TypedEntries.

(** ** The builder on any answer of the data source *)

Section AnyAnswer.
Context {host : Host}.

Lemma test_body_appends (answer : result pyval) today :
  appends is_local_day
    (calendar_list <~ lift answer ;;
     if truthy calendar_list then
       entries <~ lift (py_iter calendar_list) ;;
       for_each (MinRenovasjonTest.process_entry today) entries
     else bret tt).
Proof.
  apply appends_bbind; [apply appends_lift|]. intros calendar_list.
  destruct (truthy calendar_list); [|apply appends_bret].
  apply appends_bbind; [apply appends_lift|]. intros entries.
  apply appends_for_each, test_process_entry_appends.
Qed.

Lemma body_appends (answer : result pyval) today :
  appends is_wall_day
    (calendar_list <~ lift answer ;;
     if truthy calendar_list then
       entries <~ lift (py_iter calendar_list) ;;
       for_each (MinRenovasjon.process_entry today) entries
     else bret tt).
Proof.
  apply appends_bbind; [apply appends_lift|]. intros calendar_list.
  destruct (truthy calendar_list); [|apply appends_bret].
  apply appends_bbind; [apply appends_lift|]. intros entries.
  apply appends_for_each, process_entry_appends.
Qed.

(** [min_renovasjon_test]: the builder always returns a list, of local-day
    events, sorted by their UTC reading. *)
Lemma test_fetch_total answer now :
  exists events,
    MinRenovasjonTest._fetch_events answer now = Ok events /\
    Forall is_local_day events /\
    StronglySorted start_order events.
Proof.
  unfold MinRenovasjonTest._fetch_events. cbv zeta.
  destruct (test_body_appends answer (now / usec_per_day) [])
    as (added & E & HP).
  match goal with |- context [match ?b with _ => _ end] =>
    destruct b as [events [u|e]] end; simpl in E; subst.
  - destruct (sort_by_start_sorted utc_ordered (l := added))
      as (s & Hs & Hp & Hss).
    { eapply Forall_impl; [|exact HP]. apply local_day_utc. }
    rewrite Hs. exists s. repeat split; try assumption.
    eapply Permutation_Forall; eassumption.
  - exists []. repeat split; constructor.
Qed.

(** [min_renovasjon]: a returned list holds wall-day events only. *)
Lemma fetch_shape answer now events :
  MinRenovasjon._fetch_events answer now = Ok events ->
  Forall is_wall_day events.
Proof.
  unfold MinRenovasjon._fetch_events. cbv zeta.
  destruct (body_appends answer (now / usec_per_day) [])
    as (added & E & HP).
  match goal with |- context [match ?b with _ => _ end] =>
    destruct b as [built [u|e]] end; simpl in E; subst; [|discriminate].
  intros H. apply sort_by_start_perm in H.
  eapply Permutation_Forall; eassumption.
Qed.

End AnyAnswer.

(** ** The range filter *)

Section RangeFilter.
Context {host : Host}.

Lemma in_range_as_utc start_date end_date event :
  in_range (as_utc start_date) (as_utc end_date) event
  = Ok (overlapsb (instant start_date) (instant end_date) event).
Proof.
  unfold in_range. rewrite !dt_le_as_utc. unfold overlapsb, py_or, py_and.
  simpl.
  destruct (instant start_date <=? instant (start event)),
           (instant (start event) <=? instant end_date),
           (instant start_date <=? instant (end_ event)),
           (instant (end_ event) <=? instant end_date),
           (instant (start event) <=? instant start_date),
           (instant end_date <=? instant (end_ event)); reflexivity.
Qed.

Lemma overlapsb_iff range_start range_end event :
  overlapsb range_start range_end event = true
  <-> overlaps range_start range_end event.
Proof.
  unfold overlapsb, overlaps.
  rewrite !orb_true_iff, !andb_true_iff, !Z.leb_le. tauto.
Qed.

Lemma filter_in_range start_date end_date events :
  filter_r (in_range (as_utc start_date) (as_utc end_date)) events
  = Ok (events_in_range start_date end_date events).
Proof. apply filter_r_pure. intros; apply in_range_as_utc. Qed.

Lemma In_events_in_range start_date end_date built e :
  In e (events_in_range start_date end_date built)
  <-> In e built /\ overlaps (instant start_date) (instant end_date) e.
Proof.
  unfold events_in_range. rewrite filter_In, overlapsb_iff. tauto.
Qed.

(** For a range and an event that are not inverted, the three cases say
    that the two closed intervals share an instant. *)
Lemma overlaps_share_instant range_start range_end event :
  range_start <= range_end ->
  instant (start event) <= instant (end_ event) ->
  (overlaps range_start range_end event
   <-> share_instant range_start range_end event).
Proof.
  intros Hr He. unfold overlaps, share_instant. split.
  - intros [H|[H|H]].
    + exists (instant (start event)). lia.
    + exists (instant (end_ event)). lia.
    + exists range_start. lia.
  - intros (t & H1 & H2). lia.
Qed.

Lemma test_get_events_run answer now start_date end_date self :
  exists built,
    MinRenovasjonTest._fetch_events answer now = Ok built /\
    MinRenovasjonTest.async_get_events answer now start_date end_date self
    = (set_events self built,
       Ok (events_in_range start_date end_date built)).
Proof.
  destruct (test_fetch_total answer now) as (built & Hf & _).
  exists built. split; [assumption|].
  unfold MinRenovasjonTest.async_get_events. cbv zeta. rewrite Hf.
  simpl. now rewrite filter_in_range.
Qed.

Lemma get_events_run answer now start_date end_date self built :
  MinRenovasjon._fetch_events answer now = Ok built ->
  MinRenovasjon.async_get_events answer now start_date end_date self
  = (set_events self built, Ok (events_in_range start_date end_date built)).
Proof.
  intros Hf. unfold MinRenovasjon.async_get_events. cbv zeta. rewrite Hf.
  simpl. now rewrite filter_in_range.
Qed.

Lemma get_events_raise answer now start_date end_date self e :
  MinRenovasjon._fetch_events answer now = Raise e ->
  MinRenovasjon.async_get_events answer now start_date end_date self
  = (self, Raise e).
Proof.
  intros Hf. unfold MinRenovasjon.async_get_events. cbv zeta. now rewrite Hf.
Qed.

End RangeFilter.

(* ===================================================================== *)
(** * The claims *)

(** The built events of the first specification example, in both files. *)
Lemma test_fetch_plastic :
  @MinRenovasjonTest._fetch_events oslo (Ok (calendar_value [Some plastic]))
    june_09_1430
  = Ok [@local_day_event oslo "Plastic" 739047;
        @local_day_event oslo "Plastic" 739061].
Proof. vm_compute. reflexivity. Qed.

Lemma fetch_plastic :
  @MinRenovasjon._fetch_events oslo (Ok (calendar_value [Some plastic]))
    june_09_1430
  = Ok [wall_day_event "Plastic" june_10;
        wall_day_event "Plastic" june_24].
Proof. vm_compute. reflexivity. Qed.

(** C1. The list returned by [async_get_events] is the list of the freshly
    built events that are in the requested range, start and end normalized
    to UTC: an event is returned if and only if it was built and its start
    lies in [start, end], or its end lies in [start, end], or it contains
    [start, end]; for a range and an event that are not inverted this is to
    share an instant.  In [min_renovasjon_test] the call always returns; in
    [min_renovasjon] it returns whenever the builder does. *)
Theorem C1_range_filter_overlap {host : Host} answer now start_date end_date
  self :
  (exists built,
      MinRenovasjonTest._fetch_events answer now = Ok built /\
      snd (MinRenovasjonTest.async_get_events answer now start_date end_date
             self)
      = Ok (events_in_range start_date end_date built)) /\
  (forall built,
      MinRenovasjon._fetch_events answer now = Ok built ->
      snd (MinRenovasjon.async_get_events answer now start_date end_date self)
      = Ok (events_in_range start_date end_date built)) /\
  (forall built e,
      In e (events_in_range start_date end_date built)
      <-> In e built /\
          overlaps (instant start_date) (instant end_date) e) /\
  (forall e,
      instant start_date <= instant end_date ->
      instant (start e) <= instant (end_ e) ->
      (overlaps (instant start_date) (instant end_date) e
       <-> share_instant (instant start_date) (instant end_date) e)).
Proof.
  split; [|split; [|split]].
  - destruct (test_get_events_run answer now start_date end_date self)
      as (built & Hf & Hr).
    exists built. split; [assumption|]. now rewrite Hr.
  - intros built Hf. now erewrite get_events_run by eassumption.
  - intros built e. apply In_events_in_range.
  - intros e. apply overlaps_share_instant.
Qed.

(** The query of 08:00 to 10:00 on 2024-06-10 over the first example: in
    [min_renovasjon] it returns the event of that day and not the one of
    2024-06-24; in [min_renovasjon_test] it returns the events in range of
    the built list. *)
Lemma C1_range_filter_overlap_witness :
  snd (@MinRenovasjon.async_get_events oslo
         (Ok (calendar_value [Some plastic])) june_09_1430
         june_10_0800 june_10_1000 fresh_entity)
  = Ok [wall_day_event "Plastic" june_10] /\
  (exists built,
      @MinRenovasjonTest._fetch_events oslo
         (Ok (calendar_value [Some plastic])) june_09_1430 = Ok built /\
      snd (@MinRenovasjonTest.async_get_events oslo
             (Ok (calendar_value [Some plastic])) june_09_1430
             june_10_0800 june_10_1000 fresh_entity)
      = Ok (@events_in_range oslo june_10_0800 june_10_1000 built)).
Proof.
  destruct (@C1_range_filter_overlap oslo
              (Ok (calendar_value [Some plastic])) june_09_1430
              june_10_0800 june_10_1000 fresh_entity)
    as (Htest & Hmain & _).
  split; [|exact Htest].
  rewrite (Hmain _ fetch_plastic). vm_compute. reflexivity.
Defined.

(** C8, as the code has it.  [async_update] replaces the cached list by the
    list the builder returns, whatever the cache held, and changes no other
    field: always in [min_renovasjon_test] (where a failed fetch builds the
    empty list), and in [min_renovasjon] whenever the builder returns; when
    the builder raises there, the exception passes to the caller and the
    entity is left as it was. *)
Theorem C8_update_replaces_cache {host : Host} answer now self :
  (exists built,
      MinRenovasjonTest._fetch_events answer now = Ok built /\
      snd (MinRenovasjonTest.async_update answer now self) = Ok tt /\
      cache_replaced self built
        (fst (MinRenovasjonTest.async_update answer now self))) /\
  (forall built,
      MinRenovasjon._fetch_events answer now = Ok built ->
      snd (MinRenovasjon.async_update answer now self) = Ok tt /\
      cache_replaced self built
        (fst (MinRenovasjon.async_update answer now self))) /\
  (forall e,
      MinRenovasjon._fetch_events answer now = Raise e ->
      MinRenovasjon.async_update answer now self = (self, Raise e)).
Proof.
  split; [|split].
  - destruct (test_fetch_total answer now) as (built & Hf & _).
    exists built. unfold MinRenovasjonTest.async_update. rewrite Hf.
    repeat split.
  - intros built Hf. unfold MinRenovasjon.async_update. rewrite Hf.
    repeat split.
  - intros e Hf. unfold MinRenovasjon.async_update. now rewrite Hf.
Qed.

(** An update of the stale entity on the first example, in
    [min_renovasjon]: the cache becomes the two built events. *)
Lemma C8_update_replaces_cache_witness :
  cache_replaced stale_entity
    [wall_day_event "Plastic" june_10; wall_day_event "Plastic" june_24]
    (fst (@MinRenovasjon.async_update oslo
            (Ok (calendar_value [Some plastic])) june_09_1430 stale_entity)).
Proof.
  exact (proj2 (proj1 (proj2 (@C8_update_replaces_cache oslo
                 (Ok (calendar_value [Some plastic])) june_09_1430
                 stale_entity)) _ fetch_plastic)).
Defined.

(** C8 as stated fails in [min_renovasjon]: when the data source fails, the
    update raises and the cache keeps the event of the earlier fetch. *)
Lemma C8_update_keeps_cache_on_failure :
  snd (@MinRenovasjon.async_update oslo no_answer june_09_1430 stale_entity)
  = Raise (OtherError "no answer") /\
  _events (fst (@MinRenovasjon.async_update oslo no_answer june_09_1430
                  stale_entity))
  = [wall_day_event "Papir" june_10] /\
  _events stale_entity = [wall_day_event "Papir" june_10].
Proof. repeat split. Qed.

(** C9, as the code has it.  [async_get_events] is not a pure read: it runs
    the builder on the fresh answer of the data source, stores the built
    list in the cache whatever the cache held, and returns the events of
    that list that are in range: always in [min_renovasjon_test], and in
    [min_renovasjon] whenever the builder returns; when the builder raises
    there, the call raises and the cache is left as it was. *)
Theorem C9_get_events_refreshes_cache {host : Host} answer now start_date
  end_date self :
  (exists built,
      MinRenovasjonTest._fetch_events answer now = Ok built /\
      snd (MinRenovasjonTest.async_get_events answer now start_date end_date
             self)
      = Ok (events_in_range start_date end_date built) /\
      cache_replaced self built
        (fst (MinRenovasjonTest.async_get_events answer now start_date
                end_date self))) /\
  (forall built,
      MinRenovasjon._fetch_events answer now = Ok built ->
      snd (MinRenovasjon.async_get_events answer now start_date end_date self)
      = Ok (events_in_range start_date end_date built) /\
      cache_replaced self built
        (fst (MinRenovasjon.async_get_events answer now start_date end_date
                self))) /\
  (forall e,
      MinRenovasjon._fetch_events answer now = Raise e ->
      MinRenovasjon.async_get_events answer now start_date end_date self
      = (self, Raise e)).
Proof.
  split; [|split].
  - destruct (test_get_events_run answer now start_date end_date self)
      as (built & Hf & Hr).
    exists built. rewrite Hr. simpl. repeat split. assumption.
  - intros built Hf. erewrite get_events_run by eassumption. simpl.
    repeat split.
  - intros e Hf. now apply get_events_raise.
Qed.

(** A query on the stale entity, in [min_renovasjon]: the cache becomes the
    two built events, and the event of the queried day is returned. *)
Lemma C9_get_events_refreshes_cache_witness :
  snd (@MinRenovasjon.async_get_events oslo
         (Ok (calendar_value [Some plastic])) june_09_1430
         june_10_0800 june_10_1000 stale_entity)
  = Ok (@events_in_range oslo june_10_0800 june_10_1000
          [wall_day_event "Plastic" june_10;
           wall_day_event "Plastic" june_24]) /\
  cache_replaced stale_entity
    [wall_day_event "Plastic" june_10; wall_day_event "Plastic" june_24]
    (fst (@MinRenovasjon.async_get_events oslo
            (Ok (calendar_value [Some plastic])) june_09_1430
            june_10_0800 june_10_1000 stale_entity)).
Proof.
  exact (proj1 (proj2 (@C9_get_events_refreshes_cache oslo
                 (Ok (calendar_value [Some plastic])) june_09_1430
                 june_10_0800 june_10_1000 stale_entity)) _ fetch_plastic).
Defined.

(** C9 as stated fails in [min_renovasjon]: when the data source fails, the
    query raises and the cache keeps the event of the earlier fetch. *)
Lemma C9_get_events_keeps_cache_on_failure :
  snd (@MinRenovasjon.async_get_events oslo no_answer june_09_1430
         june_10_0800 june_10_1000 stale_entity)
  = Raise (OtherError "no answer") /\
  _events (fst (@MinRenovasjon.async_get_events oslo no_answer june_09_1430
                  june_10_0800 june_10_1000 stale_entity))
  = [wall_day_event "Papir" june_10] /\
  _events stale_entity = [wall_day_event "Papir" june_10].
Proof. repeat split. Qed.

(** ** The next event *)

Section NextEvent.
Context {host : Host}.
Variable P : datetime -> Prop.
Variable key : datetime -> Z.
Hypothesis ordered : ordered_by P key.

Lemma next_from_spec now events :
  P now -> Forall (fun e => P (start e)) events ->
  exists r,
    next_from now events = Ok r /\
    (forall e, r = Some e -> earliest_from key (key now) events e) /\
    (r = None <-> forall e, In e events -> key (start e) < key now).
Proof.
  intros Hnow Hall. unfold next_from.
  rewrite (filter_r_pure _ (fun e => key now <=? key (start e))).
  2:{ intros x Hx. apply (dt_ge_ordered ordered); [|assumption].
      rewrite Forall_forall in Hall. now apply Hall. }
  simpl.
  destruct (filter (fun e => key now <=? key (start e)) events)
    as [|first others] eqn:E.
  - exists None. split; [reflexivity|]. split; [discriminate|].
    split; [|reflexivity]. intros _ e He.
    destruct (Z.ltb_spec (key (start e)) (key now)) as [|Hge]; [assumption|].
    assert (Hin : In e []).
    { rewrite <- E. apply filter_In. split; [assumption|]. now apply Z.leb_le. }
    destruct Hin.
  - assert (Hsub : forall x, In x (first :: others) ->
                             In x events /\ key now <= key (start x)).
    { intros x Hx. rewrite <- E in Hx. apply filter_In in Hx as [H1 H2].
      split; [assumption|]. now apply Z.leb_le. }
    assert (Hfam : Forall (fun e => P (start e)) (first :: others)).
    { apply Forall_forall. intros x Hx. destruct (Hsub x Hx) as [Hin _].
      rewrite Forall_forall in Hall. now apply Hall. }
    inversion Hfam as [|? ? Hfirst Hothers]; subst.
    destruct (min_by_start_least ordered first Hfirst Hothers)
      as (m & Hm & Hin & Hleast).
    rewrite Hm. simpl. exists (Some m).
    split; [reflexivity|]. split; [|split; [discriminate|]].
    + intros e He. inversion He; subst e.
      destruct (Hsub m Hin) as [Hin1 Hge1].
      split; [assumption|]. split; [assumption|].
      intros e' He' Hge.
      assert (Hin' : In e' (first :: others)).
      { rewrite <- E. apply filter_In. split; [assumption|]. now apply Z.leb_le. }
      rewrite Forall_forall in Hleast. now apply Hleast.
    + intros Hnone. exfalso.
      destruct (Hsub first (or_introl eq_refl)) as [Hin1 Hge].
      specialize (Hnone first Hin1). lia.
Qed.

End NextEvent.

Lemma fetch_typed_zone {host : Host} z entries now events :
  Forall (entry_in z) entries ->
  MinRenovasjon._fetch_events (Ok (calendar_value entries)) now = Ok events ->
  Forall (fun e => tz (start e) = z) events.
Proof.
  intros Hn Hf. destruct (fetch_typed now Hn) as (events' & Hf' & Hp & _).
  rewrite Hf in Hf'. inversion Hf'; subst events'.
  eapply Permutation_Forall; [exact Hp|]. now apply generated_zone.
Qed.

(** In [min_renovasjon] the naive [now] cannot be compared with a start
    that carries a [tzinfo]: a cache holding one makes the selection
    raise. *)
Lemma filter_from_naive_now_raises {host : Host} now events :
  Exists (fun e => aware (start e) = true) events ->
  filter_r (fun event => dt_ge (start event) (mkDatetime now None)) events
  = Raise TypeError.
Proof.
  induction events as [|x l IH]; intros H; [inversion H|].
  simpl. unfold dt_ge at 1, dt_le, dt_compare. cbn [tz].
  destruct (tz (start x)) as [[o|]|] eqn:E; try reflexivity.
  simpl. rewrite IH; [reflexivity|].
  inversion H as [? ? Hx|? ? Hl]; subst; [|assumption].
  unfold aware in Hx. rewrite E in Hx. discriminate.
Qed.

(** C5, as the code has it.  [_get_next_event] leaves the entity as it is.
    In [min_renovasjon_test], on the caches its builder produces (starts in
    UTC, after any update or range query and whatever the data source
    answers), it returns the event of the cache with the smallest start
    among those whose start is at [now] or later, [now] being read as local
    time and moved to UTC, and [None] when no event of the cache starts at
    [now] or later (so also for an empty cache).  In [min_renovasjon] it
    does the same, with the naive [now] on the wall clock, on a cache whose
    starts are all naive (as its builder produces from naive dates); on a
    cache that holds a start carrying a [tzinfo] (as its builder produces
    from aware dates) it raises [TypeError]. *)
Theorem C5_next_event {host : Host} now self :
  (Forall (fun e => tz (start e) = Some UTC) (_events self) ->
   fst (MinRenovasjonTest._get_next_event now self) = self /\
   exists r,
     snd (MinRenovasjonTest._get_next_event now self) = Ok r /\
     (forall e, r = Some e ->
        earliest_from wall (instant (mkDatetime now None)) (_events self) e) /\
     (r = None <->
      forall e, In e (_events self) ->
                wall (start e) < instant (mkDatetime now None))) /\
  (Forall (fun e => tz (start e) = None) (_events self) ->
   fst (MinRenovasjon._get_next_event now self) = self /\
   exists r,
     snd (MinRenovasjon._get_next_event now self) = Ok r /\
     (forall e, r = Some e -> earliest_from wall now (_events self) e) /\
     (r = None <-> forall e, In e (_events self) -> wall (start e) < now)) /\
  (forall answer fetched_at start_date end_date,
     Forall (fun e => tz (start e) = Some UTC)
       (_events (fst (MinRenovasjonTest.async_update answer fetched_at
                        self))) /\
     Forall (fun e => tz (start e) = Some UTC)
       (_events (fst (MinRenovasjonTest.async_get_events answer fetched_at
                        start_date end_date self)))) /\
  (forall entries fetched_at,
     Forall (entry_in None) entries ->
     Forall (fun e => tz (start e) = None)
       (_events (fst (MinRenovasjon.async_update
                        (Ok (calendar_value entries)) fetched_at self)))) /\
  (Exists (fun e => aware (start e) = true) (_events self) ->
   MinRenovasjon._get_next_event now self = (self, Raise TypeError)).
Proof.
  split; [|split; [|split; [|split]]].
  - intros Hcache. split; [reflexivity|].
    destruct (next_from_spec utc_ordered (as_utc (mkDatetime now None))
                (as_utc_tz _) Hcache)
      as (r & Hr & Hsome & Hnone).
    exists r. unfold MinRenovasjonTest._get_next_event. cbv zeta. simpl snd.
    rewrite Hr. split; [reflexivity|]. split; assumption.
  - intros Hcache. split; [reflexivity|].
    destruct (next_from_spec (zone_ordered (z := None)) (mkDatetime now None)
                eq_refl Hcache)
      as (r & Hr & Hsome & Hnone).
    exists r. unfold MinRenovasjon._get_next_event. cbv zeta. simpl snd.
    rewrite Hr. split; [reflexivity|]. split; assumption.
  - intros answer fetched_at start_date end_date.
    destruct (test_fetch_total answer fetched_at) as (built & Hf & Hl & _).
    assert (Hutc : Forall (fun e => tz (start e) = Some UTC) built).
    { eapply Forall_impl; [|exact Hl]. apply local_day_utc. }
    split.
    + unfold MinRenovasjonTest.async_update. now rewrite Hf.
    + destruct (test_get_events_run answer fetched_at start_date end_date
                  self) as (built' & Hf' & Hr).
      rewrite Hf in Hf'. inversion Hf'; subst built'. now rewrite Hr.
  - intros entries fetched_at Hn.
    destruct (fetch_typed fetched_at Hn) as (built & Hf & _).
    unfold MinRenovasjon.async_update. rewrite Hf. simpl.
    now apply (fetch_typed_zone _ Hn Hf).
  - intros Haware. unfold MinRenovasjon._get_next_event. cbv zeta.
    unfold next_from. now rewrite (filter_from_naive_now_raises now Haware).
Qed.

(** C5 as stated fails in [min_renovasjon]: a pickup date in UTC, today or
    later, is built into a cached event with a start in UTC, and the
    selection on that cache raises [TypeError]. *)
Lemma C5_aware_cache_raises :
  @MinRenovasjon.async_update oslo (Ok (calendar_value [Some glass_aware]))
    june_09_1430 fresh_entity
  = (set_events fresh_entity [wall_day_event "Glass" june_24_utc], Ok tt) /\
  tz (start (wall_day_event "Glass" june_24_utc)) = Some UTC /\
  snd (@MinRenovasjon._get_next_event oslo june_09_1430
         (set_events fresh_entity [wall_day_event "Glass" june_24_utc]))
  = Raise TypeError.
Proof. repeat split; vm_compute; reflexivity. Qed.

(** On the afternoon of 2024-06-09 the next event of the first example is
    found, in [min_renovasjon_test]. *)
Lemma C5_next_event_witness :
  fst (@MinRenovasjonTest._get_next_event oslo june_09_1430 upcoming_entity)
  = upcoming_entity /\
  exists r,
    snd (@MinRenovasjonTest._get_next_event oslo june_09_1430 upcoming_entity)
    = Ok r /\
    (forall e, r = Some e ->
       earliest_from wall (@instant oslo (mkDatetime june_09_1430 None))
         (_events upcoming_entity) e) /\
    (r = None <->
     forall e, In e (_events upcoming_entity) ->
               wall (start e) < @instant oslo (mkDatetime june_09_1430 None)).
Proof.
  apply (proj1 (@C5_next_event oslo june_09_1430 upcoming_entity)).
  repeat constructor.
Defined.

Example next_event_plastic :
  snd (@MinRenovasjonTest._get_next_event oslo june_09_1430 upcoming_entity)
  = Ok (Some (@local_day_event oslo "Plastic" 739047)).
Proof. vm_compute. reflexivity. Qed.

(** ** Null entries *)

Lemma for_each_without_none (body : pyval -> builder unit) entries events :
  (forall events', body VNone events' = (events', Ok tt)) ->
  for_each body entries events = for_each body (without_none entries) events.
Proof.
  intros Hnone. revert events.
  induction entries as [|entry rest IH]; intros events; [reflexivity|].
  destruct entry; simpl;
    try (unfold bbind; destruct (body _ events) as [events' [u|e]];
         [apply IH | reflexivity]).
  unfold bbind. rewrite Hnone. apply IH.
Qed.

Lemma body_without_none (body : pyval -> builder unit) entries :
  (forall events', body VNone events' = (events', Ok tt)) ->
  (calendar_list <~ lift (Ok (VTuple entries)) ;;
   if truthy calendar_list then
     entries <~ lift (py_iter calendar_list) ;; for_each body entries
   else bret tt) []
  = (calendar_list <~ lift (Ok (VTuple (without_none entries))) ;;
     if truthy calendar_list then
       entries <~ lift (py_iter calendar_list) ;; for_each body entries
     else bret tt) [].
Proof.
  intros Hnone.
  assert (H : forall l,
             (calendar_list <~ lift (Ok (VTuple l)) ;;
              if truthy calendar_list then
                entries <~ lift (py_iter calendar_list) ;;
                for_each body entries
              else bret tt) []
             = for_each body l []).
  { intros [|x l]; reflexivity. }
  rewrite !H. now apply for_each_without_none.
Qed.

(** C7. On a pickup list, the builder returns what it returns on the list
    with the null entries removed, in both files: a null entry raises
    nothing and leaves the events of the other entries as they are. *)
Theorem C7_null_entries_skipped {host : Host} (entries : list pyval) now :
  MinRenovasjonTest._fetch_events (Ok (VTuple entries)) now
  = MinRenovasjonTest._fetch_events (Ok (VTuple (without_none entries))) now /\
  MinRenovasjon._fetch_events (Ok (VTuple entries)) now
  = MinRenovasjon._fetch_events (Ok (VTuple (without_none entries))) now.
Proof.
  split.
  - unfold MinRenovasjonTest._fetch_events. cbv zeta.
    now rewrite (body_without_none
                   (MinRenovasjonTest.process_entry (now / usec_per_day))
                   entries (fun _ => eq_refl)).
  - unfold MinRenovasjon._fetch_events. cbv zeta.
    now rewrite (body_without_none
                   (MinRenovasjon.process_entry (now / usec_per_day))
                   entries (fun _ => eq_refl)).
Qed.

Example null_entry_example :
  @MinRenovasjonTest._fetch_events oslo
     (Ok (VTuple [VNone; entry_value (Some plastic); VNone])) june_09_1430
  = @MinRenovasjonTest._fetch_events oslo
     (Ok (calendar_value [Some plastic])) june_09_1430.
Proof. vm_compute. reflexivity. Qed.

(** ** Order of the returned lists *)

Section SortedLists.
Context {host : Host}.


End SortedLists.



(** ** Events per date field *)

Lemma field_events_due (mk : string -> datetime -> CalendarEvent) today name
  dt :
  today <= date_of dt -> field_events mk today name (Some dt) = [mk name dt].
Proof. intros H. simpl. apply Z.leb_le in H. now rewrite H. Qed.




(** The events of a field of yesterday, of today and of tomorrow. *)
Example field_events_around_today :
  field_events wall_day_event 739046 "Plastic"
    (Some (mkDatetime (739045 * usec_per_day + 1) None)) = [] /\
  List.length (field_events wall_day_event 739046 "Plastic"
            (Some (mkDatetime (739046 * usec_per_day) None))) = 1%nat /\
  List.length (field_events wall_day_event 739046 "Plastic"
            (Some (mkDatetime (739047 * usec_per_day) None))) = 1%nat.
Proof. repeat split. Qed.




Example fetch_paper_twice :
  @MinRenovasjon._fetch_events oslo (Ok (calendar_value [Some paper_twice]))
    june_09_1430
  = Ok [wall_day_event "Papir" june_10; wall_day_event "Papir" june_10].
Proof. vm_compute. reflexivity. Qed.

(** ** The span of an event *)

Lemma local_day_span {host : Host} e :
  is_local_day e ->
  exists d,
    start e = as_utc (local_midnight d) /\
    end_ e = as_utc (local_midnight (d + 1)) /\
    tz (start e) = Some UTC /\ tz (end_ e) = Some UTC.
Proof.
  intros (name & d & ->). exists d. simpl.
  repeat split; apply as_utc_tz.
Qed.

Lemma wall_day_span {host : Host} e :
  is_wall_day e ->
  exists dt,
    start e = replace_midnight dt /\
    end_ e = add_days (start e) 1 /\
    wall (start e) = date_of dt * usec_per_day /\
    wall (end_ e) = (date_of dt + 1) * usec_per_day /\
    tz (start e) = tz dt /\ tz (end_ e) = tz dt /\
    (tz dt = None \/ tz dt = Some TzDefault ->
     as_utc (start e) = as_utc (local_midnight (date_of dt)) /\
     as_utc (end_ e) = as_utc (local_midnight (date_of dt + 1))).
Proof.
  intros (name & dt & ->). exists dt. simpl.
  assert (Hw : wall dt - wall dt mod usec_per_day = date_of dt * usec_per_day)
    by apply wall_replace_midnight.
  assert (Hw' : wall dt - wall dt mod usec_per_day + 1 * usec_per_day
                = (date_of dt + 1) * usec_per_day) by lia.
  repeat split; try assumption.
  - unfold replace_midnight, local_midnight. rewrite Hw.
    destruct H as [-> | ->]; reflexivity.
  - unfold add_days, replace_midnight, local_midnight; cbn [wall tz].
    rewrite Hw'. destruct H as [-> | ->]; reflexivity.
Qed.

(** C2, as the code has it.  In [min_renovasjon_test] every event the
    builder returns spans one calendar day of the configured local zone:
    its start is local midnight of a day and its end local midnight of the
    following day, both as UTC values.  In [min_renovasjon] every event the
    builder returns keeps the [tzinfo] of its pickup date, naive for a naive
    date: its start is midnight of the day of the pickup on the wall clock
    of the pickup and its end the same reading a day later; for a naive
    pickup, or one in the local zone, [as_utc] of the start and of the end
    are local midnight and the following local midnight. *)
Theorem C2_event_spans_one_day {host : Host} answer now :
  (exists events,
      MinRenovasjonTest._fetch_events answer now = Ok events /\
      Forall (fun e => exists d,
                start e = as_utc (local_midnight d) /\
                end_ e = as_utc (local_midnight (d + 1)) /\
                tz (start e) = Some UTC /\ tz (end_ e) = Some UTC)
             events) /\
  (forall events,
      MinRenovasjon._fetch_events answer now = Ok events ->
      Forall (fun e => exists dt,
                start e = replace_midnight dt /\
                end_ e = add_days (start e) 1 /\
                wall (start e) = date_of dt * usec_per_day /\
                wall (end_ e) = (date_of dt + 1) * usec_per_day /\
                tz (start e) = tz dt /\ tz (end_ e) = tz dt /\
                (tz dt = None \/ tz dt = Some TzDefault ->
                 as_utc (start e) = as_utc (local_midnight (date_of dt)) /\
                 as_utc (end_ e)
                 = as_utc (local_midnight (date_of dt + 1))))
             events).
Proof.
  split.
  - destruct (test_fetch_total answer now) as (events & Hf & Hl & _).
    exists events. split; [assumption|].
    eapply Forall_impl; [|exact Hl]. apply local_day_span.
  - intros events Hf. eapply Forall_impl; [|exact (fetch_shape _ _ Hf)].
    apply wall_day_span.
Qed.

(** The events of the first example, in [min_renovasjon]. *)
Lemma C2_event_spans_one_day_witness :
  Forall (fun e => exists dt,
            start e = replace_midnight dt /\
            end_ e = add_days (start e) 1 /\
            wall (start e) = date_of dt * usec_per_day /\
            wall (end_ e) = (date_of dt + 1) * usec_per_day /\
            tz (start e) = tz dt /\ tz (end_ e) = tz dt /\
            (tz dt = None \/ tz dt = Some TzDefault ->
             @as_utc oslo (start e)
             = @as_utc oslo (local_midnight (date_of dt)) /\
             @as_utc oslo (end_ e)
             = @as_utc oslo (local_midnight (date_of dt + 1))))
         [wall_day_event "Plastic" june_10; wall_day_event "Plastic" june_24].
Proof.
  exact (proj2 (@C2_event_spans_one_day oslo
                  (Ok (calendar_value [Some plastic])) june_09_1430)
               _ fetch_plastic).
Defined.

(** C2 as stated fails in [min_renovasjon]: the events built from the first
    example are naive, their start reads local midnight and not the UTC
    value of local midnight (22:00 of the day before, in summer time). *)
Lemma C2_wall_day_event_not_utc :
  @MinRenovasjon._fetch_events oslo (Ok (calendar_value [Some plastic]))
    june_09_1430
  = Ok [wall_day_event "Plastic" june_10; wall_day_event "Plastic" june_24] /\
  start (wall_day_event "Plastic" june_10)
  = mkDatetime (739047 * usec_per_day) None /\
  @as_utc oslo (local_midnight 739047)
  = mkDatetime (739047 * usec_per_day - 7200000000) (Some UTC) /\
  tz (start (wall_day_event "Plastic" june_10)) <> Some UTC /\
  start (wall_day_event "Plastic" june_10)
  <> @as_utc oslo (local_midnight 739047).
Proof.
  split; [vm_compute; reflexivity|].
  split; [vm_compute; reflexivity|].
  split; [vm_compute; reflexivity|].
  split; vm_compute; discriminate.
Qed.

(** ** Exceptions *)

Section Exceptions.
Context {host : Host}.





(** The body of [_fetch_events] on a list is the loop over the list. *)
Lemma body_on_list (body : pyval -> builder unit) entries :
  (calendar_list <~ lift (Ok (VTuple entries)) ;;
   if truthy calendar_list then
     entries <~ lift (py_iter calendar_list) ;; for_each body entries
   else bret tt) []
  = for_each body entries [].
Proof. destruct entries; reflexivity. Qed.


Lemma test_next_event_total now self :
  exists r, snd (MinRenovasjonTest._get_next_event now self) = Ok r.
Proof.
  unfold MinRenovasjonTest._get_next_event. cbv zeta. simpl.
  destruct (next_from _ _) as [r|e]; simpl; eauto.
Qed.

End Exceptions.




(** [min_renovasjon_test]: a date field holding a text raises
    [AttributeError], which the handler of the loop body does not list; the
    handler of the function catches it and the whole list is lost, the
    events of the well-formed entry included. *)
Example test_fetch_text_date :
  @MinRenovasjonTest._fetch_events oslo
    (Ok (VTuple [entry_value (Some plastic);
                 VTuple [VStr "glass"; VStr "Glass"; VStr "";
                         VStr "2024-06-10"; VNone]])) june_09_1430
  = Ok [].
Proof. vm_compute. reflexivity. Qed.

(** The first example of the specification with [date] objects in place of
    [datetime]s: a [date] has no [date()] method. *)
Example fetch_date_objects :
  @MinRenovasjon._fetch_events oslo
    (Ok (VTuple [VTuple [VStr "plastic"; VStr "Plastic"; VStr "";
                         VDate 739047; VDate 739061]])) june_09_1430
  = Raise AttributeError.
Proof. vm_compute. reflexivity. Qed.

(* ===================================================================== *)
(** * Further properties of the two files *)

(** ** No event before today, whatever the data source answers *)

Section NotBeforeToday.
Context {host : Host}.
Variable today : Z.

(** The events the two files may append on day [today]. *)
Let local_due (e : CalendarEvent) : Prop :=
  exists name d, today <= d /\ e = local_day_event name d.

Let wall_due (e : CalendarEvent) : Prop :=
  exists name dt, today <= date_of dt /\ e = wall_day_event name dt.

Lemma test_pickup_event_due fraction_name pickup_date :
  appends local_due
    (MinRenovasjonTest.pickup_event today fraction_name pickup_date).
Proof.
  unfold MinRenovasjonTest.pickup_event.
  apply appends_lift_bind. intros [|] Hdue; [|apply appends_bret].
  apply is_due_true in Hdue as (d & -> & Hd). simpl.
  apply appends_lift_bind. intros event_start Hs. inversion Hs; subst.
  apply appends_lift_bind. intros event_end He. inversion He; subst.
  apply appends_append.
  exists (format_value fraction_name), (date_of d). split; [assumption|].
  unfold local_day_event, local_midnight. now rewrite date_of_add_one_day.
Qed.

Lemma pickup_event_due fraction_name pickup_date :
  appends wall_due
    (MinRenovasjon.pickup_event today fraction_name pickup_date).
Proof.
  unfold MinRenovasjon.pickup_event.
  apply appends_lift_bind. intros [|] Hdue; [|apply appends_bret].
  apply is_due_true in Hdue as (d & -> & Hd). simpl.
  apply appends_lift_bind. intros event_start Hs. inversion Hs; subst.
  apply appends_append.
  now exists (format_value fraction_name), d.
Qed.

Lemma test_body_due (answer : result pyval) :
  appends local_due
    (calendar_list <~ lift answer ;;
     if truthy calendar_list then
       entries <~ lift (py_iter calendar_list) ;;
       for_each (MinRenovasjonTest.process_entry today) entries
     else bret tt).
Proof.
  apply appends_bbind; [apply appends_lift|]. intros calendar_list.
  destruct (truthy calendar_list); [|apply appends_bret].
  apply appends_bbind; [apply appends_lift|]. intros entries.
  apply appends_for_each. intros entry.
  assert (H : appends local_due
    (try_except
       (fields <~ lift (unpack5 entry) ;;
        let '(_, fraction_name, _, pickup_date, next_pickup_date) := fields in
        _ <~ MinRenovasjonTest.pickup_event today fraction_name pickup_date ;;
        MinRenovasjonTest.pickup_event today fraction_name next_pickup_date)
       MinRenovasjonTest.entry_errors)).
  { apply appends_try_except, appends_bbind; [apply appends_lift|].
    intros [[[[a b] c] d] e].
    apply appends_bbind; [|intros _]; apply test_pickup_event_due. }
  destruct entry; first [exact H | apply appends_bret].
Qed.

Lemma body_due (answer : result pyval) :
  appends wall_due
    (calendar_list <~ lift answer ;;
     if truthy calendar_list then
       entries <~ lift (py_iter calendar_list) ;;
       for_each (MinRenovasjon.process_entry today) entries
     else bret tt).
Proof.
  apply appends_bbind; [apply appends_lift|]. intros calendar_list.
  destruct (truthy calendar_list); [|apply appends_bret].
  apply appends_bbind; [apply appends_lift|]. intros entries.
  apply appends_for_each. intros entry.
  assert (H : appends wall_due
    (fields <~ lift (unpack5 entry) ;;
     let '(_, fraction_name, _, pickup_date, next_pickup_date) := fields in
     _ <~ MinRenovasjon.pickup_event today fraction_name pickup_date ;;
     MinRenovasjon.pickup_event today fraction_name next_pickup_date)).
  { apply appends_bbind; [apply appends_lift|].
    intros [[[[a b] c] d] e].
    apply appends_bbind; [|intros _]; apply pickup_event_due. }
  destruct entry; first [exact H | apply appends_bret].
Qed.

End NotBeforeToday.

Lemma date_of_replace_midnight (d : datetime) :
  date_of (replace_midnight d) = date_of d.
Proof.
  unfold date_of at 1. rewrite wall_replace_midnight.
  apply Z.div_mul. unfold usec_per_day; lia.
Qed.

(** X1. Whatever the data source answers, every event the builder returns
    is for a day that is the current local date or later, and its summary
    and description name one and the same fraction.  In
    [min_renovasjon_test] the event runs from local midnight of that day to
    the next local midnight, in UTC; in [min_renovasjon] its start is
    midnight of that day on the wall clock of the pickup date. *)
Theorem X1_no_event_before_today {host : Host} answer now :
  (exists events,
      MinRenovasjonTest._fetch_events answer now = Ok events /\
      Forall (fun e => exists fraction d,
                now / usec_per_day <= d /\
                summary e = (fraction ++ " tømming")%string /\
                description e = ("Tømming av " ++ fraction)%string /\
                start e = as_utc (local_midnight d) /\
                end_ e = as_utc (local_midnight (d + 1)))
             events) /\
  (forall events,
      MinRenovasjon._fetch_events answer now = Ok events ->
      Forall (fun e => exists fraction,
                now / usec_per_day <= date_of (start e) /\
                summary e = (fraction ++ " tømming")%string /\
                description e = ("Tømming av " ++ fraction)%string /\
                wall (start e) = date_of (start e) * usec_per_day /\
                end_ e = add_days (start e) 1)
             events).
Proof.
  split.
  - unfold MinRenovasjonTest._fetch_events. cbv zeta.
    destruct (test_body_due (now / usec_per_day) answer [])
      as (added & E & HP).
    match goal with |- context [match ?b with _ => _ end] =>
      destruct b as [built [u|e]] end; simpl in E; subst.
    + destruct (sort_by_start_sorted utc_ordered (l := added))
        as (s & Hs & Hp & _).
      { eapply Forall_impl; [|exact HP].
        intros e (fraction & d & _ & ->). apply as_utc_tz. }
      rewrite Hs. exists s. split; [reflexivity|].
      eapply Permutation_Forall; [exact Hp|].
      eapply Forall_impl; [|exact HP].
      intros e (fraction & d & Hd & ->). exists fraction, d.
      now repeat split.
    + exists []. split; [reflexivity|constructor].
  - intros events. unfold MinRenovasjon._fetch_events. cbv zeta.
    destruct (body_due (now / usec_per_day) answer []) as (added & E & HP).
    match goal with |- context [match ?b with _ => _ end] =>
      destruct b as [built [u|e]] end; simpl in E; subst; [|discriminate].
    intros H. apply sort_by_start_perm in H.
    eapply Permutation_Forall; [exact H|].
    eapply Forall_impl; [|exact HP].
    intros e (fraction & dt & Hd & ->). exists fraction. simpl.
    rewrite date_of_replace_midnight.
    repeat split; try assumption.
    change (wall (replace_midnight dt) = date_of dt * usec_per_day).
    apply wall_replace_midnight.
Qed.

(** The events of the first example, in [min_renovasjon]. *)
Lemma X1_no_event_before_today_witness :
  Forall (fun e => exists fraction,
            june_09_1430 / usec_per_day <= date_of (start e) /\
            summary e = (fraction ++ " tømming")%string /\
            description e = ("Tømming av " ++ fraction)%string /\
            wall (start e) = date_of (start e) * usec_per_day /\
            end_ e = add_days (start e) 1)
         [wall_day_event "Plastic" june_10; wall_day_event "Plastic" june_24].
Proof.
  exact (proj2 (@X1_no_event_before_today oslo
                  (Ok (calendar_value [Some plastic])) june_09_1430)
               _ fetch_plastic).
Defined.

(** ** Answers that are not a list of entries *)

Lemma py_iter_raises v e : py_iter v = Raise e -> e = TypeError.
Proof. destruct v; simpl; intros H; inversion H; reflexivity. Qed.

(** X2. When the data source answers something false (None, an empty list,
    an empty string, zero), both files return the empty list and raise
    nothing.  When it answers something true that cannot be iterated (a
    number, a date), [min_renovasjon] raises [TypeError] and
    [min_renovasjon_test] returns the empty list. *)
Theorem X2_answer_without_entries {host : Host} (v : pyval) now :
  (truthy v = false ->
   MinRenovasjonTest._fetch_events (Ok v) now = Ok [] /\
   MinRenovasjon._fetch_events (Ok v) now = Ok []) /\
  (forall e,
      truthy v = true -> py_iter v = Raise e ->
      MinRenovasjonTest._fetch_events (Ok v) now = Ok [] /\
      MinRenovasjon._fetch_events (Ok v) now = Raise TypeError).
Proof.
  split.
  - intros Hf.
    unfold MinRenovasjonTest._fetch_events, MinRenovasjon._fetch_events.
    cbv zeta. unfold bbind at 1 3, lift at 1 3. rewrite Hf.
    split; reflexivity.
  - intros e Ht Hi. rewrite (py_iter_raises _ Hi) in Hi.
    unfold MinRenovasjonTest._fetch_events, MinRenovasjon._fetch_events.
    cbv zeta. unfold bbind, lift. rewrite Ht, Hi.
    split; reflexivity.
Qed.

(** The answers [None] and [7]. *)
Lemma X2_answer_without_entries_witness :
  (@MinRenovasjonTest._fetch_events oslo (Ok VNone) june_09_1430 = Ok [] /\
   @MinRenovasjon._fetch_events oslo (Ok VNone) june_09_1430 = Ok []) /\
  (@MinRenovasjonTest._fetch_events oslo (Ok (VInt 7)) june_09_1430 = Ok [] /\
   @MinRenovasjon._fetch_events oslo (Ok (VInt 7)) june_09_1430
   = Raise TypeError).
Proof.
  split.
  - exact (proj1 (@X2_answer_without_entries oslo VNone june_09_1430)
                 eq_refl).
  - exact (proj2 (@X2_answer_without_entries oslo (VInt 7) june_09_1430)
                 TypeError eq_refl eq_refl).
Defined.

(** ** A date field of a wrong type *)

Section WrongDate.
Context {host : Host}.

Lemma is_due_wrong_date today v :
  wrong_date v = true -> is_due today v = Raise AttributeError.
Proof.
  unfold wrong_date, is_due, py_and, rbind.
  destruct v as [|z|s|o|d|items]; simpl; try discriminate;
    try (destruct (negb _); [reflexivity|discriminate]);
    try reflexivity.
  destruct items; [discriminate|reflexivity].
Qed.

(** A block of the loop body returns, or raises [AttributeError]. *)
Lemma is_due_outcome today v :
  (exists b, is_due today v = Ok b) \/ is_due today v = Raise AttributeError.
Proof.
  unfold is_due, py_and, rbind.
  destruct v as [|z|s|o|d|items]; simpl; eauto;
    try (destruct (negb _); eauto).
  destruct items; eauto.
Qed.

Lemma test_pickup_event_outcome today fraction_name v events :
  (exists events',
      MinRenovasjonTest.pickup_event today fraction_name v events
      = (events', Ok tt)) \/
  MinRenovasjonTest.pickup_event today fraction_name v events
  = (events, Raise AttributeError).
Proof.
  unfold MinRenovasjonTest.pickup_event, bbind, lift.
  destruct (is_due_outcome today v) as [[b Hb] | Hr]; rewrite ?Hb, ?Hr;
    [|now right].
  destruct b; [|left; now eexists].
  apply is_due_true in Hb as (d & -> & _). simpl. left. now eexists.
Qed.

Lemma test_pickup_event_wrong_date today fraction_name v events :
  wrong_date v = true ->
  MinRenovasjonTest.pickup_event today fraction_name v events
  = (events, Raise AttributeError).
Proof.
  intros H. unfold MinRenovasjonTest.pickup_event, bbind, lift.
  now rewrite (is_due_wrong_date today v H).
Qed.

Lemma pickup_event_outcome today fraction_name v events :
  (exists events',
      MinRenovasjon.pickup_event today fraction_name v events
      = (events', Ok tt)) \/
  MinRenovasjon.pickup_event today fraction_name v events
  = (events, Raise AttributeError).
Proof.
  unfold MinRenovasjon.pickup_event, bbind, lift.
  destruct (is_due_outcome today v) as [[b Hb] | Hr]; rewrite ?Hb, ?Hr;
    [|now right].
  destruct b; [|left; now eexists].
  apply is_due_true in Hb as (d & -> & _). simpl. left. now eexists.
Qed.

Lemma pickup_event_wrong_date today fraction_name v events :
  wrong_date v = true ->
  MinRenovasjon.pickup_event today fraction_name v events
  = (events, Raise AttributeError).
Proof.
  intros H. unfold MinRenovasjon.pickup_event, bbind, lift.
  now rewrite (is_due_wrong_date today v H).
Qed.

(** An entry of five fields with a wrong date raises [AttributeError] out of
    the loop body, in both files. *)
Lemma test_process_entry_wrong_date today entry i n u pd npd events :
  unpack5 entry = Ok (i, n, u, pd, npd) ->
  wrong_date pd = true \/ wrong_date npd = true ->
  exists events',
    MinRenovasjonTest.process_entry today entry events
    = (events', Raise AttributeError).
Proof.
  intros Hu Hw.
  assert (H : exists events',
    try_except
      (fields <~ lift (unpack5 entry) ;;
       let '(_, fraction_name, _, pickup_date, next_pickup_date) := fields in
       _ <~ MinRenovasjonTest.pickup_event today fraction_name pickup_date ;;
       MinRenovasjonTest.pickup_event today fraction_name next_pickup_date)
      MinRenovasjonTest.entry_errors events
    = (events', Raise AttributeError)).
  { unfold try_except, bbind at 1, lift at 1. rewrite Hu. unfold bbind.
    destruct (test_pickup_event_outcome today n pd events)
      as [[events' E] | E]; rewrite E.
    - destruct Hw as [Hw | Hw].
      + rewrite (test_pickup_event_wrong_date today n pd events Hw) in E.
        discriminate.
      + rewrite (test_pickup_event_wrong_date today n npd events' Hw).
        now eexists.
    - now eexists. }
  destruct entry; first [exact H | discriminate].
Qed.

Lemma process_entry_wrong_date today entry i n u pd npd events :
  unpack5 entry = Ok (i, n, u, pd, npd) ->
  wrong_date pd = true \/ wrong_date npd = true ->
  exists events',
    MinRenovasjon.process_entry today entry events
    = (events', Raise AttributeError).
Proof.
  intros Hu Hw.
  assert (H : exists events',
    (fields <~ lift (unpack5 entry) ;;
     let '(_, fraction_name, _, pickup_date, next_pickup_date) := fields in
     _ <~ MinRenovasjon.pickup_event today fraction_name pickup_date ;;
     MinRenovasjon.pickup_event today fraction_name next_pickup_date) events
    = (events', Raise AttributeError)).
  { unfold bbind at 1, lift at 1. rewrite Hu. unfold bbind.
    destruct (pickup_event_outcome today n pd events)
      as [[events' E] | E]; rewrite E.
    - destruct Hw as [Hw | Hw].
      + rewrite (pickup_event_wrong_date today n pd events Hw) in E.
        discriminate.
      + rewrite (pickup_event_wrong_date today n npd events' Hw).
        now eexists.
    - now eexists. }
  destruct entry; first [exact H | discriminate].
Qed.

(** A loop that reaches an entry on which the body raises, raises. *)
Lemma for_each_raises (body : pyval -> builder unit) before bad after events :
  (forall events0, exists events' e, body bad events0 = (events', Raise e)) ->
  exists events' e,
    for_each body (before ++ bad :: after) events = (events', Raise e).
Proof.
  intros Hbad. revert events.
  induction before as [|x before IH]; intros events; simpl; unfold bbind.
  - destruct (Hbad events) as (events' & e & ->). eauto.
  - destruct (body x events) as [events' [u|e]]; [apply IH | eauto].
Qed.

End WrongDate.

(** X3. When an entry of the pickup list has five fields and one of its two
    date fields holds something true that is not a [datetime] (a text, a
    number, a [date]), the whole list is lost: [min_renovasjon_test]
    returns the empty list, without the events of the well-formed entries
    before and after it, and [min_renovasjon] raises. *)
Theorem X3_wrong_date_loses_the_list {host : Host} before entry after now i n
  u pd npd :
  unpack5 entry = Ok (i, n, u, pd, npd) ->
  wrong_date pd = true \/ wrong_date npd = true ->
  MinRenovasjonTest._fetch_events (Ok (VTuple (before ++ entry :: after))) now
  = Ok [] /\
  exists e,
    MinRenovasjon._fetch_events (Ok (VTuple (before ++ entry :: after))) now
    = Raise e.
Proof.
  intros Hu Hw. split.
  - unfold MinRenovasjonTest._fetch_events. cbv zeta. rewrite body_on_list.
    destruct (for_each_raises
                (MinRenovasjonTest.process_entry (now / usec_per_day))
                before entry after [])
      as (events' & e & ->); [|reflexivity].
    intros events0.
    destruct (test_process_entry_wrong_date (now / usec_per_day) entry
                events0 Hu Hw) as (events' & ->). eauto.
  - unfold MinRenovasjon._fetch_events. cbv zeta. rewrite body_on_list.
    destruct (for_each_raises
                (MinRenovasjon.process_entry (now / usec_per_day))
                before entry after [])
      as (events' & e & ->); [|eauto].
    intros events0.
    destruct (process_entry_wrong_date (now / usec_per_day) entry
                events0 Hu Hw) as (events' & ->). eauto.
Qed.

(** The first example followed by an entry whose pickup date is a text. *)
Lemma X3_wrong_date_loses_the_list_witness :
  @MinRenovasjonTest._fetch_events oslo
    (Ok (VTuple ([entry_value (Some plastic)] ++
                 VTuple [VStr "glass"; VStr "Glass"; VStr "";
                         VStr "2024-06-10"; VNone] :: []))) june_09_1430
  = Ok [] /\
  exists e,
    @MinRenovasjon._fetch_events oslo
      (Ok (VTuple ([entry_value (Some plastic)] ++
                   VTuple [VStr "glass"; VStr "Glass"; VStr "";
                           VStr "2024-06-10"; VNone] :: []))) june_09_1430
    = Raise e.
Proof.
  apply (@X3_wrong_date_loses_the_list oslo [entry_value (Some plastic)]
           (VTuple [VStr "glass"; VStr "Glass"; VStr "";
                    VStr "2024-06-10"; VNone])
           [] june_09_1430
           (VStr "glass") (VStr "Glass") (VStr "") (VStr "2024-06-10") VNone
           eq_refl).
  left. reflexivity.
Defined.

(** ** A range query and an update *)

(** X4. A range query leaves the entity exactly as an update with the same
    answer of the data source does, in both files, also when the data
    source fails. *)
Theorem X4_query_updates_like_update {host : Host} answer now start_date
  end_date self :
  fst (MinRenovasjonTest.async_get_events answer now start_date end_date self)
  = fst (MinRenovasjonTest.async_update answer now self) /\
  fst (MinRenovasjon.async_get_events answer now start_date end_date self)
  = fst (MinRenovasjon.async_update answer now self).
Proof.
  split.
  - destruct (test_fetch_total answer now) as (built & Hf & _).
    unfold MinRenovasjonTest.async_get_events,
      MinRenovasjonTest.async_update. cbv zeta. now rewrite Hf.
  - unfold MinRenovasjon.async_get_events, MinRenovasjon.async_update.
    cbv zeta. now destruct (MinRenovasjon._fetch_events answer now).
Qed.

(** ** The next event of a sorted cache *)

Section FirstFuture.
Context {host : Host}.
Variable P : datetime -> Prop.
Variable key : datetime -> Z.
Hypothesis ordered : ordered_by P key.

Lemma min_by_start_first best l :
  P (start best) -> Forall (fun e => P (start e)) l ->
  Forall (fun e => key (start best) <= key (start e)) l ->
  min_by_start best l = Ok best.
Proof.
  intros Hb Hl Hle. induction l as [|x l IH]; simpl; [reflexivity|].
  inversion Hl as [|? ? Hx Hl']; subst.
  inversion Hle as [|? ? Hbx Hle']; subst.
  rewrite (dt_lt_ordered ordered _ _ Hx Hb). simpl.
  apply Z.ltb_ge in Hbx. rewrite Hbx. now apply IH.
Qed.

Lemma find_head_of_filter (f : CalendarEvent -> bool) l :
  find f l = match filter f l with [] => None | x :: _ => Some x end.
Proof.
  induction l as [|x l IH]; simpl; [reflexivity|].
  now destruct (f x).
Qed.

(** On a list in non-decreasing order of start, the selection is the first
    element, in the order of the list, that starts at [now] or later. *)
Lemma next_from_sorted now events :
  P now -> Forall (fun e => P (start e)) events ->
  StronglySorted (fun a b => key (start a) <= key (start b)) events ->
  next_from now events
  = Ok (find (fun e => key now <=? key (start e)) events).
Proof.
  intros Hnow Hall Hs. unfold next_from.
  rewrite (filter_r_pure _ (fun e => key now <=? key (start e))).
  2:{ intros x Hx. apply (dt_ge_ordered ordered); [|assumption].
      rewrite Forall_forall in Hall. now apply Hall. }
  simpl. rewrite find_head_of_filter.
  pose proof (StronglySorted_filter (fun e => key now <=? key (start e)) Hs)
    as Hsf.
  assert (Hpf : Forall (fun e => P (start e))
                  (filter (fun e => key now <=? key (start e)) events)).
  { apply Forall_forall. intros x Hx. apply filter_In in Hx as [Hx _].
    rewrite Forall_forall in Hall. now apply Hall. }
  destruct (filter (fun e => key now <=? key (start e)) events)
    as [|first others]; [reflexivity|].
  inversion Hsf as [|? ? _ Hle]; subst.
  inversion Hpf as [|? ? Hfirst Hothers]; subst.
  now rewrite (min_by_start_first first Hfirst Hothers Hle).
Qed.

End FirstFuture.

(** X5. After an update, the property [event] is the first event of the
    cached list, in the order of the list, that starts at [now] or later,
    and [None] when there is none: the cache is sorted, so the events
    before it have all started.  In [min_renovasjon_test] for every answer
    of the data source, [now] being moved to UTC; in [min_renovasjon] for
    the pickup lists of the data model with naive dates. *)
Theorem X5_event_is_first_future {host : Host} now fetched_at self :
  (forall answer,
      snd (MinRenovasjonTest.event now
             (fst (MinRenovasjonTest.async_update answer fetched_at self)))
      = Ok (first_from (instant (mkDatetime now None))
              (_events
                 (fst (MinRenovasjonTest.async_update answer fetched_at
                         self))))) /\
  (forall entries,
      Forall (entry_in None) entries ->
      snd (MinRenovasjon.event now
             (fst (MinRenovasjon.async_update (Ok (calendar_value entries))
                     fetched_at self)))
      = Ok (first_from now
              (_events
                 (fst (MinRenovasjon.async_update
                         (Ok (calendar_value entries)) fetched_at self))))).
Proof.
  split.
  - intros answer.
    destruct (test_fetch_total answer fetched_at) as (built & Hf & Hl & Hs).
    unfold MinRenovasjonTest.async_update. rewrite Hf. simpl fst.
    unfold MinRenovasjonTest.event, MinRenovasjonTest._get_next_event.
    cbv zeta. simpl snd. simpl _events.
    rewrite (next_from_sorted utc_ordered (as_utc (mkDatetime now None))
               (events := built)); [reflexivity | apply as_utc_tz | | exact Hs].
    eapply Forall_impl; [|exact Hl]. apply local_day_utc.
  - intros entries Hn.
    destruct (fetch_typed fetched_at Hn) as (built & Hf & Hp & Hs).
    unfold MinRenovasjon.async_update. rewrite Hf. simpl fst.
    unfold MinRenovasjon.event, MinRenovasjon._get_next_event.
    cbv zeta. simpl snd. simpl _events.
    rewrite (next_from_sorted (zone_ordered (z := None))
               (mkDatetime now None) (events := built));
      [reflexivity | reflexivity | | exact Hs].
    now apply (fetch_typed_zone _ Hn Hf).
Qed.

(** The first example, in [min_renovasjon], asked on 2024-06-09. *)
Lemma X5_event_is_first_future_witness :
  snd (@MinRenovasjon.event oslo june_09_1430
         (fst (@MinRenovasjon.async_update oslo
                 (Ok (calendar_value [Some plastic])) june_09_1430
                 stale_entity)))
  = Ok (first_from june_09_1430
          (_events
             (fst (@MinRenovasjon.async_update oslo
                     (Ok (calendar_value [Some plastic])) june_09_1430
                     stale_entity)))).
Proof.
  apply (proj2 (@X5_event_is_first_future oslo june_09_1430 june_09_1430
                  stale_entity)).
  repeat constructor.
Defined.

(** ** The range filter as an intersection of intervals *)

Section SharedInstant.
Context {host : Host}.

Lemma local_day_forward e :
  days_run_forward -> is_local_day e ->
  instant (start e) <= instant (end_ e).
Proof.
  intros Hd (fraction & d & ->). unfold instant.
  cbn [start end_ local_day_event]. rewrite !as_utc_idempotent.
  unfold as_utc, local_midnight; cbn.
  specialize (Hd d). lia.
Qed.

Lemma wall_day_forward e :
  days_run_forward -> is_wall_day e -> tz (start e) = None ->
  instant (start e) <= instant (end_ e).
Proof.
  intros Hd Hw Hn. destruct (wall_day_span Hw) as (dt & _ & _ & _ & _ & Ht & _ & H).
  rewrite Hn in Ht. destruct (H (or_introl (eq_sym Ht))) as [Hs He].
  unfold instant. rewrite Hs, He. unfold as_utc, local_midnight; cbn.
  specialize (Hd (date_of dt)). lia.
Qed.

End SharedInstant.

(** X6. On a host whose days run forward (the UTC offset never grows by
    more than a day from one local midnight to the next) and for a range
    whose start is not after its end, the range query returns exactly the
    built events whose interval from start to end shares an instant with
    the range, ends included: always in [min_renovasjon_test], and in
    [min_renovasjon] when the builder returns events with naive starts. *)
Theorem X6_query_returns_intersecting_events {host : Host} answer now
  start_date end_date self :
  days_run_forward ->
  instant start_date <= instant end_date ->
  (exists built returned,
      MinRenovasjonTest._fetch_events answer now = Ok built /\
      snd (MinRenovasjonTest.async_get_events answer now start_date end_date
             self) = Ok returned /\
      forall e,
        In e returned
        <-> In e built /\
            share_instant (instant start_date) (instant end_date) e) /\
  (forall built,
      MinRenovasjon._fetch_events answer now = Ok built ->
      Forall (fun e => tz (start e) = None) built ->
      exists returned,
        snd (MinRenovasjon.async_get_events answer now start_date end_date
               self) = Ok returned /\
        forall e,
          In e returned
          <-> In e built /\
              share_instant (instant start_date) (instant end_date) e).
Proof.
  intros Hd Hr. split.
  - destruct (test_get_events_run answer now start_date end_date self)
      as (built & Hf & Hrun).
    destruct (test_fetch_total answer now) as (built' & Hf' & Hl & _).
    rewrite Hf in Hf'. inversion Hf'; subst built'.
    exists built, (events_in_range start_date end_date built).
    rewrite Hrun. split; [assumption|]. split; [reflexivity|].
    intros e. rewrite In_events_in_range. split.
    + intros [Hin Ho]. split; [assumption|].
      apply overlaps_share_instant; try assumption.
      apply local_day_forward; [assumption|].
      rewrite Forall_forall in Hl. now apply Hl.
    + intros [Hin Hs]. split; [assumption|].
      apply overlaps_share_instant; try assumption.
      apply local_day_forward; [assumption|].
      rewrite Forall_forall in Hl. now apply Hl.
  - intros built Hf Hn.
    exists (events_in_range start_date end_date built).
    erewrite get_events_run by eassumption. split; [reflexivity|].
    pose proof (fetch_shape _ _ Hf) as Hl.
    rewrite Forall_forall in Hl, Hn.
    intros e. rewrite In_events_in_range. split.
    + intros [Hin Ho]. split; [assumption|].
      apply overlaps_share_instant; try assumption.
      apply wall_day_forward; auto.
    + intros [Hin Hs]. split; [assumption|].
      apply overlaps_share_instant; try assumption.
      apply wall_day_forward; auto.
Qed.

Lemma oslo_days_run_forward : @days_run_forward oslo.
Proof.
  intros d. cbn [local_utcoffset oslo]. unfold oslo_utcoffset.
  repeat match goal with
         | |- context [if ?b then _ else _] => destruct b
         end; unfold usec_per_day; lia.
Qed.

(** The query of 08:00 to 10:00 on 2024-06-10 over the first example, with
    Norwegian time. *)
Lemma X6_query_returns_intersecting_events_witness :
  (exists built returned,
      @MinRenovasjonTest._fetch_events oslo
        (Ok (calendar_value [Some plastic])) june_09_1430 = Ok built /\
      snd (@MinRenovasjonTest.async_get_events oslo
             (Ok (calendar_value [Some plastic])) june_09_1430
             june_10_0800 june_10_1000 fresh_entity) = Ok returned /\
      forall e,
        In e returned
        <-> In e built /\
            @share_instant oslo (@instant oslo june_10_0800)
              (@instant oslo june_10_1000) e) /\
  (exists returned,
      snd (@MinRenovasjon.async_get_events oslo
             (Ok (calendar_value [Some plastic])) june_09_1430
             june_10_0800 june_10_1000 fresh_entity) = Ok returned /\
      forall e,
        In e returned
        <-> In e [wall_day_event "Plastic" june_10;
                  wall_day_event "Plastic" june_24] /\
            @share_instant oslo (@instant oslo june_10_0800)
              (@instant oslo june_10_1000) e).
Proof.
  assert (Hr : @instant oslo june_10_0800 <= @instant oslo june_10_1000)
    by (vm_compute; discriminate).
  destruct (@X6_query_returns_intersecting_events oslo
              (Ok (calendar_value [Some plastic])) june_09_1430
              june_10_0800 june_10_1000 fresh_entity
              oslo_days_run_forward Hr) as [Htest Hmain].
  split; [exact Htest|]. apply (Hmain _ fetch_plastic). repeat constructor.
Defined.

(** ** Identity of the entity *)

Lemma length_append_string (s t : string) :
  String.length (s ++ t) = (String.length s + String.length t)%nat.
Proof. induction s as [|c s IH]; simpl; [reflexivity|now rewrite IH]. Qed.

Lemma append_cancel_right (s1 s2 t : string) :
  (s1 ++ t = s2 ++ t)%string -> s1 = s2.
Proof.
  revert s2. induction s1 as [|c s1 IH]; intros [|c' s2] H; simpl in H.
  - reflexivity.
  - apply (f_equal String.length) in H. simpl in H.
    rewrite length_append_string in H. lia.
  - apply (f_equal String.length) in H. simpl in H.
    rewrite length_append_string in H. lia.
  - inversion H; subst. f_equal. now apply IH.
Qed.

(** X7. The property [unique_id] tells entities of different configuration
    entries apart, and no update and no range query changes it, in either
    file. *)
Theorem X7_unique_id {host : Host} answer now start_date end_date self :
  (forall other,
      unique_id self = unique_id other ->
      config_entry self = config_entry other) /\
  unique_id (fst (MinRenovasjonTest.async_update answer now self))
  = unique_id self /\
  unique_id (fst (MinRenovasjonTest.async_get_events answer now start_date
                    end_date self))
  = unique_id self /\
  unique_id (fst (MinRenovasjon.async_update answer now self))
  = unique_id self /\
  unique_id (fst (MinRenovasjon.async_get_events answer now start_date
                    end_date self))
  = unique_id self.
Proof.
  split; [intros other; apply append_cancel_right|].
  destruct (test_fetch_total answer now) as (built & Hf & _).
  unfold MinRenovasjonTest.async_update, MinRenovasjonTest.async_get_events,
    MinRenovasjon.async_update, MinRenovasjon.async_get_events.
  cbv zeta. rewrite Hf.
  destruct (MinRenovasjon._fetch_events answer now); repeat split.
Qed.

(** Two entities with the same identifier belong to the same entry. *)
Lemma X7_unique_id_witness :
  config_entry fresh_entity = config_entry stale_entity.
Proof.
  exact (proj1 (@X7_unique_id oslo no_answer june_09_1430 june_10_0800
                  june_10_1000 fresh_entity) stale_entity eq_refl).
Defined.

(** X8. A newly constructed entity carries the calendar name and an empty
    cache: its property [event] is [None] at any time, in both files, and
    raises nothing; its name is still the calendar name after an update or
    a range query. *)
Theorem X8_new_entity {host : Host} CALENDAR_NAME hass min_renovasjon entry
  now answer fetched_at start_date end_date :
  MinRenovasjonTest.event now
    (__init__ CALENDAR_NAME hass min_renovasjon entry)
  = (__init__ CALENDAR_NAME hass min_renovasjon entry, Ok None) /\
  MinRenovasjon.event now (__init__ CALENDAR_NAME hass min_renovasjon entry)
  = (__init__ CALENDAR_NAME hass min_renovasjon entry, Ok None) /\
  name (fst (MinRenovasjonTest.async_update answer fetched_at
               (__init__ CALENDAR_NAME hass min_renovasjon entry)))
  = CALENDAR_NAME /\
  name (fst (MinRenovasjonTest.async_get_events answer fetched_at start_date
               end_date (__init__ CALENDAR_NAME hass min_renovasjon entry)))
  = CALENDAR_NAME /\
  name (fst (MinRenovasjon.async_update answer fetched_at
               (__init__ CALENDAR_NAME hass min_renovasjon entry)))
  = CALENDAR_NAME /\
  name (fst (MinRenovasjon.async_get_events answer fetched_at start_date
               end_date (__init__ CALENDAR_NAME hass min_renovasjon entry)))
  = CALENDAR_NAME.
Proof.
  split; [reflexivity|]. split; [reflexivity|].
  destruct (test_fetch_total answer fetched_at) as (built & Hf & _).
  unfold MinRenovasjonTest.async_update, MinRenovasjonTest.async_get_events,
    MinRenovasjon.async_update, MinRenovasjon.async_get_events.
  cbv zeta. rewrite Hf.
  destruct (MinRenovasjon._fetch_events answer fetched_at); repeat split.
Qed.

(** ** Setting up the platform *)

Lemma dict_get_found {V : Type} (d : list (string * V)) key v :
  dict_get d key = Ok v -> In (key, v) d.
Proof.
  induction d as [|[k w] d IH]; simpl; [discriminate|].
  destruct (String.eqb k key) eqn:E.
  - apply String.eqb_eq in E. intros H; inversion H; subst. now left.
  - intros H. right. now apply IH.
Qed.

Lemma dict_get_missing {V : Type} (d : list (string * V)) key :
  ~ In key (map fst d) <-> dict_get d key = Raise (OtherError "KeyError").
Proof.
  induction d as [|[k w] d IH]; simpl.
  - split; [reflexivity | tauto].
  - destruct (String.eqb k key) eqn:E.
    + apply String.eqb_eq in E. subst. split; [tauto | discriminate].
    + apply String.eqb_neq in E. rewrite <- IH. tauto.
Qed.

Lemma dict_get_present {V : Type} (d : list (string * V)) key :
  In key (map fst d) -> exists v, dict_get d key = Ok v.
Proof.
  induction d as [|[k w] d IH]; simpl; [tauto|].
  destruct (String.eqb k key) eqn:E; [now eexists|].
  apply String.eqb_neq in E. intros [H|H]; [congruence | now apply IH].
Qed.

(** X9. When the registry [hass.data] has an entry for the domain and that
    entry has the key ["data"], [async_setup_entry] returns and hands
    exactly one entity to the host: a new entity with an empty cache, bound
    to the object found there and to the configuration entry; it hands over
    a list in no other case.  When the domain is not in the registry, or
    its entry has no key ["data"], it raises [KeyError] and hands over
    nothing. *)
Theorem X9_setup_entry DOMAIN CALENDAR_NAME hass entry :
  (forall entities,
      async_setup_entry DOMAIN CALENDAR_NAME hass entry = Ok entities ->
      exists domain_data min_renovasjon,
        In (DOMAIN, domain_data) (data hass) /\
        In ("data", min_renovasjon) domain_data /\
        entities
        = [__init__ CALENDAR_NAME (hass_ref hass) min_renovasjon entry] /\
        Forall (fun e => _events e = [] /\
                         unique_id e = (entry ++ "_calendar")%string /\
                         name e = CALENDAR_NAME) entities) /\
  (~ In DOMAIN (map fst (data hass)) ->
   async_setup_entry DOMAIN CALENDAR_NAME hass entry
   = Raise (OtherError "KeyError")) /\
  (forall domain_data,
      dict_get (data hass) DOMAIN = Ok domain_data ->
      ~ In "data" (map fst domain_data) ->
      async_setup_entry DOMAIN CALENDAR_NAME hass entry
      = Raise (OtherError "KeyError")) /\
  (forall domain_data min_renovasjon,
      dict_get (data hass) DOMAIN = Ok domain_data ->
      dict_get domain_data "data" = Ok min_renovasjon ->
      async_setup_entry DOMAIN CALENDAR_NAME hass entry
      = Ok [__init__ CALENDAR_NAME (hass_ref hass) min_renovasjon entry]) /\
  (In DOMAIN (map fst (data hass)) ->
   exists domain_data,
     dict_get (data hass) DOMAIN = Ok domain_data /\
     (In "data" (map fst domain_data) ->
      exists min_renovasjon,
        dict_get domain_data "data" = Ok min_renovasjon /\
        async_setup_entry DOMAIN CALENDAR_NAME hass entry
        = Ok [__init__ CALENDAR_NAME (hass_ref hass) min_renovasjon entry])).
Proof.
  unfold async_setup_entry. split; [|split; [|split; [|split]]].
  - intros entities.
    destruct (dict_get (data hass) DOMAIN) as [domain_data|e] eqn:E1;
      simpl; [|discriminate].
    destruct (dict_get domain_data "data") as [min_renovasjon|e] eqn:E2;
      simpl; [|discriminate].
    intros H. inversion H; subst.
    exists domain_data, min_renovasjon.
    split; [now apply dict_get_found|].
    split; [now apply dict_get_found|].
    split; [reflexivity|]. repeat constructor.
  - intros H. apply dict_get_missing in H. now rewrite H.
  - intros domain_data E1 H. apply dict_get_missing in H.
    now rewrite E1; simpl; rewrite H.
  - intros domain_data min_renovasjon E1 E2. rewrite E1. simpl.
    now rewrite E2.
  - intros Hd. destruct (dict_get_present _ _ Hd) as (domain_data & E1).
    exists domain_data. split; [assumption|]. intros Hk.
    destruct (dict_get_present _ _ Hk) as (min_renovasjon & E2).
    exists min_renovasjon. split; [assumption|].
    rewrite E1. simpl. now rewrite E2.
Qed.

(** A registry with the domain and its data object: setup hands over the
    one new entity.  A registry without the domain: setup raises. *)
Lemma X9_setup_entry_witness :
  async_setup_entry "min_renovasjon" "Min Renovasjon"
    (mkHomeAssistant 1 [("sun", [("data", 7)]);
                        ("min_renovasjon", [("data", 2)])]) "entry"
  = Ok [__init__ "Min Renovasjon" 1 2 "entry"] /\
  async_setup_entry "min_renovasjon" "Min Renovasjon"
    (mkHomeAssistant 1 [("sun", [("data", 2)])]) "entry"
  = Raise (OtherError "KeyError").
Proof.
  split.
  - exact (proj1 (proj2 (proj2 (proj2
             (X9_setup_entry "min_renovasjon" "Min Renovasjon"
                (mkHomeAssistant 1 [("sun", [("data", 7)]);
                                    ("min_renovasjon", [("data", 2)])])
                "entry"))))
             [("data", 2)] 2 eq_refl eq_refl).
  - apply (proj1 (proj2 (X9_setup_entry "min_renovasjon" "Min Renovasjon"
                           (mkHomeAssistant 1 [("sun", [("data", 2)])])
                           "entry"))).
    simpl. intros [H|[]]. discriminate.
Defined.

(** ** The length of an event *)

(** X10. In [min_renovasjon_test] an event returned by the builder lasts,
    in UTC, one day less what the UTC offset of the host's zone gains from
    its local midnight to the next: 24 hours when the offset stays, 23 or
    25 hours over a change of summer time.  In [min_renovasjon] the end of
    an event reads exactly one day more than its start, on the wall clock of
    the pickup date. *)
Theorem X10_event_length {host : Host} answer now :
  (exists events,
      MinRenovasjonTest._fetch_events answer now = Ok events /\
      Forall (fun e => exists d,
                start e = as_utc (local_midnight d) /\
                wall (end_ e) - wall (start e)
                = usec_per_day
                  - (local_utcoffset ((d + 1) * usec_per_day)
                     - local_utcoffset (d * usec_per_day)))
             events) /\
  (forall events,
      MinRenovasjon._fetch_events answer now = Ok events ->
      Forall (fun e => wall (end_ e) - wall (start e) = usec_per_day /\
                       tz (end_ e) = tz (start e))
             events).
Proof.
  split.
  - destruct (test_fetch_total answer now) as (events & Hf & Hl & _).
    exists events. split; [assumption|].
    eapply Forall_impl; [|exact Hl].
    intros e (fraction & d & ->). exists d. split; [reflexivity|].
    unfold local_day_event, as_utc, local_midnight.
    cbn [start end_ wall tz utcoffset]. lia.
  - intros events Hf. eapply Forall_impl; [|exact (fetch_shape _ _ Hf)].
    intros e (fraction & dt & ->). unfold wall_day_event, add_days.
    cbn [start end_ wall tz]. split; [lia | reflexivity].
Qed.

(** The events of the first example, in [min_renovasjon]. *)
Lemma X10_event_length_witness :
  Forall (fun e => wall (end_ e) - wall (start e) = usec_per_day /\
                   tz (end_ e) = tz (start e))
         [wall_day_event "Plastic" june_10; wall_day_event "Plastic" june_24].
Proof.
  exact (proj2 (@X10_event_length oslo (Ok (calendar_value [Some plastic]))
                  june_09_1430) _ fetch_plastic).
Defined.

(** With Norwegian time, the event of 2024-03-31, the day summer time
    starts, lasts 23 hours. *)
Example event_of_a_short_day :
  wall (end_ (@local_day_event oslo "Plastic" 738976))
  - wall (start (@local_day_event oslo "Plastic" 738976))
  = 23 * 3600000000.
Proof. vm_compute. reflexivity. Qed.

(** ** Naive and aware dates *)

Section Awareness.
Context {host : Host}.

Lemma dt_compare_aware a b c :
  dt_compare a b = Ok c -> aware a = aware b.
Proof.
  unfold dt_compare, aware.
  destruct (tz a) as [[oa|]|], (tz b) as [[ob|]|]; intros H;
    first [reflexivity | discriminate].
Qed.

Lemma dt_compare_raises a b e : dt_compare a b = Raise e -> e = TypeError.
Proof.
  unfold dt_compare.
  destruct (tz a) as [[oa|]|], (tz b) as [[ob|]|]; intros H;
    inversion H; reflexivity.
Qed.

Lemma dt_lt_aware a b c : dt_lt a b = Ok c -> aware a = aware b.
Proof.
  unfold dt_lt. destruct (dt_compare a b) as [r|e] eqn:E; simpl;
    [|discriminate].
  intros _. now apply (dt_compare_aware _ _ E).
Qed.

Lemma dt_lt_raises a b e : dt_lt a b = Raise e -> e = TypeError.
Proof.
  unfold dt_lt. destruct (dt_compare a b) as [r|e'] eqn:E; simpl;
    [discriminate|].
  intros H. inversion H; subst. now apply (dt_compare_raises _ _ E).
Qed.

Lemma insert_by_start_raises x l e :
  insert_by_start x l = Raise e -> e = TypeError.
Proof.
  induction l as [|y l IH]; simpl; [discriminate|].
  destruct (dt_lt (start y) (start x)) as [[|]|e'] eqn:E; simpl.
  - destruct (insert_by_start x l) as [r|e'']; simpl; [discriminate|].
    intros H. inversion H; subst. now apply IH.
  - discriminate.
  - intros H. inversion H; subst. now apply (dt_lt_raises _ _ E).
Qed.

Lemma sort_by_start_raises l e : sort_by_start l = Raise e -> e = TypeError.
Proof.
  induction l as [|x l IH]; simpl; [discriminate|].
  destruct (sort_by_start l) as [s|e']; simpl.
  - apply insert_by_start_raises.
  - intros H. inversion H; subst. now apply IH.
Qed.

(** A list that sorts holds naive starts only, or aware starts only. *)
Lemma sort_by_start_uniform l s :
  sort_by_start l = Ok s ->
  forall a b, In a l -> In b l -> aware (start a) = aware (start b).
Proof.
  revert s. induction l as [|x l IH]; simpl; intros s H; [tauto|].
  destruct (sort_by_start l) as [s'|e] eqn:Es; simpl in H; [|discriminate].
  assert (Hx : forall b, In b l -> aware (start x) = aware (start b)).
  { intros b Hb.
    assert (Hb' : In b s')
      by (eapply Permutation_in; [apply (sort_by_start_perm _ Es)|exact Hb]).
    destruct s' as [|y s'']; [destruct Hb'|]. simpl in H.
    destruct (dt_lt (start y) (start x)) as [c|e] eqn:E; [|discriminate].
    apply dt_lt_aware in E.
    assert (Hy : In y l).
    { eapply Permutation_in;
        [apply Permutation_sym, (sort_by_start_perm _ Es) | now left]. }
    rewrite <- E. now apply (IH _ eq_refl). }
  intros a b [<-|Ha] [<-|Hb].
  - reflexivity.
  - now apply Hx.
  - symmetry. now apply Hx.
  - now apply (IH _ eq_refl).
Qed.

Lemma generated_field (mk : string -> datetime -> CalendarEvent) today
  entries p d :
  In (Some p) entries ->
  pickup_date p = Some d \/ next_pickup_date p = Some d ->
  today <= date_of d ->
  In (mk (fraction_name p) d) (flat_map (entry_events mk today) entries).
Proof.
  intros Hin Hd Hdue. apply in_flat_map. exists (Some p).
  split; [assumption|]. simpl. apply in_or_app.
  destruct Hd as [-> | ->]; [left | right];
    rewrite field_events_due by assumption; now left.
Qed.

End Awareness.

(** X11. A pickup list of the data model with a naive date and an aware
    date, both today or later, makes the builder of [min_renovasjon] raise
    [TypeError], its sort comparing the starts as they are; the builder of
    [min_renovasjon_test] returns a list with the events of both dates. *)
Theorem X11_naive_and_aware_dates {host : Host} entries now p q d1 d2 :
  In (Some p) entries -> In (Some q) entries ->
  pickup_date p = Some d1 \/ next_pickup_date p = Some d1 ->
  pickup_date q = Some d2 \/ next_pickup_date q = Some d2 ->
  now / usec_per_day <= date_of d1 -> now / usec_per_day <= date_of d2 ->
  aware d1 = false -> aware d2 = true ->
  MinRenovasjon._fetch_events (Ok (calendar_value entries)) now
  = Raise TypeError /\
  exists events,
    MinRenovasjonTest._fetch_events (Ok (calendar_value entries)) now
    = Ok events /\
    In (local_event_of (fraction_name p) d1) events /\
    In (local_event_of (fraction_name q) d2) events.
Proof.
  intros Hp Hq H1 H2 Hdue1 Hdue2 Hn Ha. split.
  - unfold MinRenovasjon._fetch_events. cbv zeta. rewrite body_typed.
    destruct (sort_by_start _) as [s|e] eqn:Es.
    + pose proof (sort_by_start_uniform _ Es
                    (wall_day_event (fraction_name p) d1)
                    (wall_day_event (fraction_name q) d2)
                    (generated_field wall_day_event _ _ Hp H1 Hdue1)
                    (generated_field wall_day_event _ _ Hq H2 Hdue2)) as Hu.
      unfold aware in *. simpl in Hu. rewrite Hu in Hn. congruence.
    + now rewrite (sort_by_start_raises _ Es).
  - destruct (test_fetch_typed entries now) as (events & Hf & Hperm & _).
    exists events. split; [assumption|]. split.
    + eapply Permutation_in; [exact Hperm|].
      now apply (generated_field local_event_of).
    + eapply Permutation_in; [exact Hperm|].
      now apply (generated_field local_event_of).
Qed.

(** The first example, with naive dates, next to an entry whose date is in
    UTC. *)
Lemma X11_naive_and_aware_dates_witness :
  @MinRenovasjon._fetch_events oslo
    (Ok (calendar_value [Some plastic; Some glass_aware])) june_09_1430
  = Raise TypeError /\
  exists events,
    @MinRenovasjonTest._fetch_events oslo
      (Ok (calendar_value [Some plastic; Some glass_aware])) june_09_1430
    = Ok events /\
    In (@local_event_of oslo "Plastic" june_10) events /\
    In (@local_event_of oslo "Glass" june_24_utc) events.
Proof.
  assert (H1 : june_09_1430 / usec_per_day <= date_of june_10)
    by (vm_compute; discriminate).
  assert (H2 : june_09_1430 / usec_per_day <= date_of june_24_utc)
    by (vm_compute; discriminate).
  exact (@X11_naive_and_aware_dates oslo [Some plastic; Some glass_aware]
           june_09_1430 plastic glass_aware june_10 june_24_utc
           (or_introl eq_refl) (or_intror (or_introl eq_refl))
           (or_introl eq_refl) (or_introl eq_refl) H1 H2 eq_refl eq_refl).
Defined.

(** ** Aware dates and the next event *)

Lemma next_from_naive_now_aware_cache {host : Host} now e rest :
  aware (start e) = true ->
  next_from (mkDatetime now None) (e :: rest) = Raise TypeError.
Proof.
  unfold aware, next_from. simpl. unfold dt_ge, dt_le, dt_compare. simpl.
  destruct (tz (start e)) as [[o|]|]; [reflexivity | reflexivity | discriminate].
Qed.

(** X12. When the dates of a pickup list of the data model all carry the
    same [tzinfo] and one of them is today or later, the update of
    [min_renovasjon] succeeds, and the property [event] of the updated
    entity raises [TypeError] at any time, its naive [now] being compared
    with an aware start; in [min_renovasjon_test] the property returns. *)
Theorem X12_aware_dates_break_event {host : Host} entries fetched_at now self
  t p d :
  Forall (entry_in (Some t)) entries ->
  In (Some p) entries ->
  pickup_date p = Some d \/ next_pickup_date p = Some d ->
  fetched_at / usec_per_day <= date_of d ->
  snd (MinRenovasjon.async_update (Ok (calendar_value entries)) fetched_at
         self) = Ok tt /\
  snd (MinRenovasjon.event now
         (fst (MinRenovasjon.async_update (Ok (calendar_value entries))
                 fetched_at self)))
  = Raise TypeError /\
  exists r,
    snd (MinRenovasjonTest.event now
           (fst (MinRenovasjonTest.async_update (Ok (calendar_value entries))
                   fetched_at self)))
    = Ok r.
Proof.
  intros Hz Hp Hd Hdue.
  destruct (fetch_typed fetched_at Hz) as (built & Hf & Hperm & _).
  pose proof (fetch_typed_zone _ Hz Hf) as Hzone.
  assert (Hin : In (wall_day_event (fraction_name p) d) built).
  { eapply Permutation_in; [exact Hperm|].
    now apply (generated_field wall_day_event). }
  unfold MinRenovasjon.async_update. rewrite Hf. simpl fst. simpl snd.
  split; [reflexivity|]. split.
  - unfold MinRenovasjon.event, MinRenovasjon._get_next_event. cbv zeta.
    simpl snd. simpl _events.
    destruct built as [|e rest]; [destruct Hin|].
    apply next_from_naive_now_aware_cache.
    inversion Hzone as [|? ? He _]; subst. unfold aware. now rewrite He.
  - apply test_next_event_total.
Qed.

(** An entry whose date is in UTC, updated and asked on 2024-06-09. *)
Lemma X12_aware_dates_break_event_witness :
  snd (@MinRenovasjon.async_update oslo (Ok (calendar_value [Some glass_aware]))
         june_09_1430 fresh_entity) = Ok tt /\
  snd (@MinRenovasjon.event oslo june_09_1430
         (fst (@MinRenovasjon.async_update oslo
                 (Ok (calendar_value [Some glass_aware])) june_09_1430
                 fresh_entity)))
  = Raise TypeError /\
  exists r,
    snd (@MinRenovasjonTest.event oslo june_09_1430
           (fst (@MinRenovasjonTest.async_update oslo
                   (Ok (calendar_value [Some glass_aware])) june_09_1430
                   fresh_entity)))
    = Ok r.
Proof.
  assert (Hdue : june_09_1430 / usec_per_day <= date_of june_24_utc)
    by (vm_compute; discriminate).
  apply (@X12_aware_dates_break_event oslo [Some glass_aware] june_09_1430
           june_09_1430 fresh_entity UTC glass_aware june_24_utc).
  - repeat constructor.
  - now left.
  - now left.
  - exact Hdue.
Defined.

(** ** A range given backwards *)

(** X13. When the end of the requested range is before its start, the
    range query still returns events: exactly the built events that start
    at the start of the range or before and end at the end of the range or
    after, so an event that holds both ends is returned.  In both files;
    [min_renovasjon] whenever its builder returns. *)
Theorem X13_inverted_range {host : Host} answer now start_date end_date self :
  instant end_date < instant start_date ->
  (exists built returned,
      MinRenovasjonTest._fetch_events answer now = Ok built /\
      snd (MinRenovasjonTest.async_get_events answer now start_date end_date
             self) = Ok returned /\
      forall e,
        In e returned
        <-> In e built /\
            instant (start e) <= instant start_date /\
            instant end_date <= instant (end_ e)) /\
  (forall built,
      MinRenovasjon._fetch_events answer now = Ok built ->
      exists returned,
        snd (MinRenovasjon.async_get_events answer now start_date end_date
               self) = Ok returned /\
        forall e,
          In e returned
          <-> In e built /\
              instant (start e) <= instant start_date /\
              instant end_date <= instant (end_ e)).
Proof.
  intros Hinv.
  assert (Hiff : forall built e,
            In e (events_in_range start_date end_date built)
            <-> In e built /\
                instant (start e) <= instant start_date /\
                instant end_date <= instant (end_ e)).
  { intros built e. rewrite In_events_in_range. unfold overlaps.
    split; intros [Hin H]; (split; [assumption|]); lia. }
  split.
  - destruct (test_get_events_run answer now start_date end_date self)
      as (built & Hf & Hrun).
    exists built, (events_in_range start_date end_date built).
    rewrite Hrun. split; [assumption|]. split; [reflexivity|]. apply Hiff.
  - intros built Hf. exists (events_in_range start_date end_date built).
    erewrite get_events_run by eassumption. split; [reflexivity|].
    apply Hiff.
Qed.

(** The query from 10:00 back to 08:00 on 2024-06-10 over the first
    example, in [min_renovasjon]. *)
Lemma X13_inverted_range_witness :
  exists returned,
    snd (@MinRenovasjon.async_get_events oslo
           (Ok (calendar_value [Some plastic])) june_09_1430
           june_10_1000 june_10_0800 fresh_entity) = Ok returned /\
    forall e,
      In e returned
      <-> In e [wall_day_event "Plastic" june_10;
                wall_day_event "Plastic" june_24] /\
          @instant oslo (start e) <= @instant oslo june_10_1000 /\
          @instant oslo june_10_0800 <= @instant oslo (end_ e).
Proof.
  assert (Hinv : @instant oslo june_10_0800 < @instant oslo june_10_1000)
    by (vm_compute; reflexivity).
  exact (proj2 (@X13_inverted_range oslo
                  (Ok (calendar_value [Some plastic])) june_09_1430
                  june_10_1000 june_10_0800 fresh_entity Hinv)
               _ fetch_plastic).
Defined.

Example inverted_range_returns_the_day :
  snd (@MinRenovasjon.async_get_events oslo
         (Ok (calendar_value [Some plastic])) june_09_1430
         june_10_1000 june_10_0800 fresh_entity)
  = Ok [wall_day_event "Plastic" june_10].
Proof. vm_compute. reflexivity. Qed.

(** ** Events of the same start *)

Section Stable.
Context {host : Host}.
Variable P : datetime -> Prop.
Variable key : datetime -> Z.
Hypothesis ordered : ordered_by P key.

Let at_start (w : Z) (e : CalendarEvent) : bool := key (start e) =? w.

Lemma insert_by_start_stable w x l r :
  P (start x) -> Forall (fun e => P (start e)) l ->
  insert_by_start x l = Ok r ->
  filter (at_start w) r = filter (at_start w) (x :: l).
Proof.
  intros Hx. revert r. induction l as [|y l IH]; intros r Hl H.
  - simpl in H. inversion H; subst. reflexivity.
  - inversion Hl as [|? ? Hy Hl']; subst. simpl in H.
    rewrite (dt_lt_ordered ordered _ _ Hy Hx) in H. simpl in H.
    destruct (key (start y) <? key (start x)) eqn:E.
    + destruct (insert_by_start x l) as [r'|e] eqn:Er; simpl in H;
        [|discriminate].
      inversion H; subst. apply Z.ltb_lt in E.
      change (filter (at_start w) (y :: r'))
        with (if at_start w y then y :: filter (at_start w) r'
              else filter (at_start w) r').
      rewrite (IH r' Hl' eq_refl). simpl. unfold at_start.
      destruct (key (start x) =? w) eqn:Ex, (key (start y) =? w) eqn:Ey;
        try reflexivity.
      apply Z.eqb_eq in Ex, Ey. lia.
    + inversion H; subst. reflexivity.
Qed.

(** The sort is stable: for each start, the events of that start are in
    the sorted list as they were in the list. *)
Lemma sort_by_start_stable w l s :
  Forall (fun e => P (start e)) l ->
  sort_by_start l = Ok s ->
  filter (at_start w) s = filter (at_start w) l.
Proof.
  revert s. induction l as [|x l IH]; intros s Hl H.
  - simpl in H. inversion H; subst. reflexivity.
  - inversion Hl as [|? ? Hx Hl']; subst. simpl in H.
    destruct (sort_by_start l) as [s'|e] eqn:Es; simpl in H; [|discriminate].
    assert (Hs' : Forall (fun e => P (start e)) s').
    { eapply Permutation_Forall; [|exact Hl'].
      now apply sort_by_start_perm. }
    rewrite (@insert_by_start_stable w x s' s Hx Hs' H).
    simpl. now rewrite (IH s' Hl' eq_refl).
Qed.

End Stable.

(** X14. Events with the same start come out in the order in which the
    pickup list gives them (entry by entry, the pickup date before the next
    pickup date): for each start, the returned events of that start are,
    in the same order, the generated events of that start.  In
    [min_renovasjon_test] for every pickup list of the data model, in
    [min_renovasjon] for those whose dates carry one [tzinfo], or none. *)
Theorem X14_same_start_keeps_list_order {host : Host} entries now w :
  (exists events,
      MinRenovasjonTest._fetch_events (Ok (calendar_value entries)) now
      = Ok events /\
      filter (fun e => wall (start e) =? w) events
      = filter (fun e => wall (start e) =? w)
          (flat_map (entry_events local_event_of (now / usec_per_day))
                    entries)) /\
  (forall z,
      Forall (entry_in z) entries ->
      exists events,
        MinRenovasjon._fetch_events (Ok (calendar_value entries)) now
        = Ok events /\
        filter (fun e => wall (start e) =? w) events
        = filter (fun e => wall (start e) =? w)
            (flat_map (entry_events wall_day_event (now / usec_per_day))
                      entries)).
Proof.
  split.
  - destruct (test_fetch_typed entries now) as (events & Hf & _).
    exists events. split; [assumption|].
    unfold MinRenovasjonTest._fetch_events in Hf. cbv zeta in Hf.
    rewrite test_body_typed in Hf.
    assert (Hutc : Forall (fun e => tz (start e) = Some UTC)
              (flat_map (entry_events local_event_of (now / usec_per_day))
                        entries)).
    { eapply Forall_impl; [|apply generated_local]. apply local_day_utc. }
    destruct (sort_by_start_sorted utc_ordered Hutc) as (s & Es & _).
    rewrite Es in Hf. simpl in Hf. inversion Hf; subst s.
    now apply (sort_by_start_stable utc_ordered w Hutc).
  - intros z Hz.
    destruct (fetch_typed now Hz) as (events & Hf & _).
    exists events. split; [assumption|].
    unfold MinRenovasjon._fetch_events in Hf. cbv zeta in Hf.
    rewrite body_typed in Hf.
    apply (sort_by_start_stable (zone_ordered (z := z)) w); [|exact Hf].
    now apply generated_zone.
Qed.

(** Two fractions picked up on 2024-06-10, glass after plastic in the
    list, in [min_renovasjon]. *)
Lemma X14_same_start_keeps_list_order_witness :
  exists events,
    @MinRenovasjon._fetch_events oslo
      (Ok (calendar_value [Some plastic; Some paper_twice])) june_09_1430
    = Ok events /\
    filter (fun e => wall (start e) =? 739047 * usec_per_day) events
    = filter (fun e => wall (start e) =? 739047 * usec_per_day)
        (flat_map (entry_events wall_day_event (june_09_1430 / usec_per_day))
                  [Some plastic; Some paper_twice]).
Proof.
  apply (proj2 (@X14_same_start_keeps_list_order oslo
                  [Some plastic; Some paper_twice] june_09_1430
                  (739047 * usec_per_day)) None).
  repeat constructor.
Defined.

Example same_day_order :
  @MinRenovasjon._fetch_events oslo
    (Ok (calendar_value [Some plastic; Some paper_twice])) june_09_1430
  = Ok [wall_day_event "Plastic" june_10; wall_day_event "Papir" june_10;
        wall_day_event "Papir" june_10; wall_day_event "Plastic" june_24].
Proof. vm_compute. reflexivity. Qed.

(** ** The number of events *)

Section Counting.
Context {host : Host}.

Lemma at_most_bret {A} (a : A) : appends_at_most 0 (bret a).
Proof. intros events; exists []; simpl. now rewrite app_nil_r. Qed.

Lemma at_most_append (e : CalendarEvent) : appends_at_most 1 (append e).
Proof. intros events; exists [e]; simpl. split; [reflexivity|lia]. Qed.

Lemma at_most_more {A} (n n' : nat) (m : builder A) :
  (n <= n')%nat -> appends_at_most n m -> appends_at_most n' m.
Proof.
  intros Hle Hm events. destruct (Hm events) as (added & E & Hn).
  exists added. split; [assumption|lia].
Qed.

Lemma at_most_lift_bind {A B} n (r : result A) (k : A -> builder B) :
  (forall a, r = Ok a -> appends_at_most n (k a)) ->
  appends_at_most n (bbind (lift r) k).
Proof.
  intros Hk events. unfold bbind, lift.
  destruct r as [a|e]; [apply (Hk a eq_refl)|].
  exists []; simpl. rewrite app_nil_r. split; [reflexivity|lia].
Qed.

Lemma at_most_bbind {A B} n1 n2 (m : builder A) (k : A -> builder B) :
  appends_at_most n1 m -> (forall a, appends_at_most n2 (k a)) ->
  appends_at_most (n1 + n2) (bbind m k).
Proof.
  intros Hm Hk events. unfold bbind.
  destruct (Hm events) as (added & E & Hn).
  destruct (m events) as [events' [a|e]]; simpl in E; subst.
  - destruct (Hk a (events ++ added)) as (added' & E' & Hn').
    exists (added ++ added'). rewrite E', app_assoc. split; [reflexivity|].
    rewrite length_app. lia.
  - exists added. split; [reflexivity|lia].
Qed.

Lemma at_most_try_except n (m : builder unit) (caught : exn -> bool) :
  appends_at_most n m -> appends_at_most n (try_except m caught).
Proof.
  intros Hm events. unfold try_except.
  destruct (Hm events) as (added & E & Hn).
  destruct (m events) as [events' [a|e]]; simpl in *; exists added; now split.
Qed.

Lemma at_most_for_each n (body : pyval -> builder unit) entries :
  (forall entry, appends_at_most n (body entry)) ->
  appends_at_most (List.length entries * n) (for_each body entries).
Proof.
  intros Hb. induction entries as [|entry rest IH]; simpl.
  - apply at_most_bret.
  - apply at_most_bbind; [apply Hb | intros _; exact IH].
Qed.

Lemma test_pickup_event_at_most today fraction_name pickup_date :
  appends_at_most 1
    (MinRenovasjonTest.pickup_event today fraction_name pickup_date).
Proof.
  unfold MinRenovasjonTest.pickup_event.
  apply at_most_lift_bind. intros [|] _;
    [|apply (at_most_more (n := 0)); [lia | apply at_most_bret]].
  apply at_most_lift_bind. intros event_start _.
  apply at_most_lift_bind. intros event_end _.
  apply at_most_append.
Qed.

Lemma pickup_event_at_most today fraction_name pickup_date :
  appends_at_most 1
    (MinRenovasjon.pickup_event today fraction_name pickup_date).
Proof.
  unfold MinRenovasjon.pickup_event.
  apply at_most_lift_bind. intros [|] _;
    [|apply (at_most_more (n := 0)); [lia | apply at_most_bret]].
  apply at_most_lift_bind. intros event_start _.
  apply at_most_append.
Qed.

Lemma test_process_entry_at_most today entry :
  appends_at_most 2 (MinRenovasjonTest.process_entry today entry).
Proof.
  assert (H : appends_at_most 2
    (try_except
       (fields <~ lift (unpack5 entry) ;;
        let '(_, fraction_name, _, pickup_date, next_pickup_date) := fields in
        _ <~ MinRenovasjonTest.pickup_event today fraction_name pickup_date ;;
        MinRenovasjonTest.pickup_event today fraction_name next_pickup_date)
       MinRenovasjonTest.entry_errors)).
  { apply at_most_try_except, at_most_lift_bind.
    intros [[[[a b] c] d] e] _.
    apply (at_most_bbind (n1 := 1) (n2 := 1));
      [|intros _]; apply test_pickup_event_at_most. }
  destruct entry; first [exact H | apply (at_most_more (n := 0));
                                   [lia | apply at_most_bret]].
Qed.

Lemma process_entry_at_most today entry :
  appends_at_most 2 (MinRenovasjon.process_entry today entry).
Proof.
  assert (H : appends_at_most 2
    (fields <~ lift (unpack5 entry) ;;
     let '(_, fraction_name, _, pickup_date, next_pickup_date) := fields in
     _ <~ MinRenovasjon.pickup_event today fraction_name pickup_date ;;
     MinRenovasjon.pickup_event today fraction_name next_pickup_date)).
  { apply at_most_lift_bind.
    intros [[[[a b] c] d] e] _.
    apply (at_most_bbind (n1 := 1) (n2 := 1));
      [|intros _]; apply pickup_event_at_most. }
  destruct entry; first [exact H | apply (at_most_more (n := 0));
                                   [lia | apply at_most_bret]].
Qed.

End Counting.

Lemma fetch_without_none {host : Host} (entries : list pyval) now :
  MinRenovasjonTest._fetch_events (Ok (VTuple entries)) now
  = MinRenovasjonTest._fetch_events (Ok (VTuple (without_none entries))) now /\
  MinRenovasjon._fetch_events (Ok (VTuple entries)) now
  = MinRenovasjon._fetch_events (Ok (VTuple (without_none entries))) now.
Proof.
  split.
  - unfold MinRenovasjonTest._fetch_events. cbv zeta.
    now rewrite (body_without_none
                   (MinRenovasjonTest.process_entry (now / usec_per_day))
                   entries (fun _ => eq_refl)).
  - unfold MinRenovasjon._fetch_events. cbv zeta.
    now rewrite (body_without_none
                   (MinRenovasjon.process_entry (now / usec_per_day))
                   entries (fun _ => eq_refl)).
Qed.

(** X15. Whatever the entries of a pickup list hold, the builder returns at
    most two events for each entry that is not null, in both files. *)
Theorem X15_at_most_two_events_per_entry {host : Host} (entries : list pyval)
  now :
  (exists events,
      MinRenovasjonTest._fetch_events (Ok (VTuple entries)) now = Ok events /\
      (List.length events <= 2 * List.length (without_none entries))%nat) /\
  (forall events,
      MinRenovasjon._fetch_events (Ok (VTuple entries)) now = Ok events ->
      (List.length events <= 2 * List.length (without_none entries))%nat).
Proof.
  split.
  - destruct (test_fetch_total (Ok (VTuple entries)) now)
      as (events & Hf & _).
    exists events. split; [assumption|].
    rewrite (proj1 (fetch_without_none entries now)) in Hf.
    revert Hf. unfold MinRenovasjonTest._fetch_events. cbv zeta.
    rewrite body_on_list.
    destruct (at_most_for_each
                (MinRenovasjonTest.process_entry (now / usec_per_day))
                (without_none entries)
                (test_process_entry_at_most (now / usec_per_day)) [])
      as (added & E & Hn).
    destruct (for_each _ _ []) as [built [u|e]]; simpl in E; subst.
    + destruct (sort_by_start added) as [s|e] eqn:Es; simpl; intros H;
        inversion H; subst; simpl; [|lia].
      rewrite <- (Permutation_length (sort_by_start_perm _ Es)). lia.
    + simpl. intros H; inversion H; subst. simpl. lia.
  - intros events Hf.
    rewrite (proj2 (fetch_without_none entries now)) in Hf.
    revert Hf. unfold MinRenovasjon._fetch_events. cbv zeta.
    rewrite body_on_list.
    destruct (at_most_for_each
                (MinRenovasjon.process_entry (now / usec_per_day))
                (without_none entries)
                (process_entry_at_most (now / usec_per_day)) [])
      as (added & E & Hn).
    destruct (for_each _ _ []) as [built [u|e]]; simpl in E; subst;
      [|discriminate].
    intros Hs.
    rewrite <- (Permutation_length (sort_by_start_perm _ Hs)). lia.
Qed.
